(** * Monstercat utilities ([utils/mcutils.py]): a shallow embedding

    The development follows the module top-down: Python values and
    exceptions, the subset of the [re] engine the module's patterns use, the
    duration codec, the two classifiers, the catalog resolver
    ([ConnectGetter]) and the audio sources.

    Strings are Python [str] values whose code points are below 256, one
    [ascii] per code point.  Exceptions are values of [exn]; a function that
    can raise returns a [result].  Library functions whose results only pass
    through ([str.upper], [urllib.parse.quote], [datetime.strptime], the
    audio decoder of [discord]) are section variables.

    Left out: the embeds, the lookups [get_track], [get_monstercat_track]
    and [release_from_id], [MCLongSource.get_info], and the method
    [MCLongSource.start_loop], which the source leaves unfinished. *)

From Stdlib Require Import ZArith List String Ascii Bool Lia.
From Stdlib Require Import Numbers.DecimalString Floats.SpecFloat.
Import ListNotations.

Local Open Scope string_scope.
Local Open Scope Z_scope.

(** ** Exceptions and results *)

Inductive exn : Type :=
| ValueError (msg : string)
| TypeError (msg : string)
| AttributeError (msg : string)
| KeyError (key : string)
| IndexError (msg : string)
| OverflowError (msg : string).

Inductive result (A : Type) : Type :=
| Ok (a : A)
| Raise (e : exn).

Arguments Ok {A} a.
Arguments Raise {A} e.

Definition bind {A B : Type} (m : result A) (f : A -> result B) : result B :=
  match m with
  | Ok a => f a
  | Raise e => Raise e
  end.

Declare Scope result_scope.
Delimit Scope result_scope with res.
Notation "x <- m ;; k" := (bind m (fun x => k))
  (at level 61, m at next level, right associativity) : result_scope.
Notation "' p <- m ;; k" := (bind m (fun x => let 'p := x in k))
  (at level 61, p pattern, m at next level, right associativity) : result_scope.
Local Open Scope result_scope.

(** A list comprehension [[f x for x in xs]] whose element expression can
    raise: elements are evaluated left to right and the first exception
    aborts the comprehension. *)
Fixpoint comprehension {A B : Type} (f : A -> result B) (xs : list A)
  : result (list B) :=
  match xs with
  | [] => Ok []
  | x :: xs' => y <- f x ;; ys <- comprehension f xs' ;; Ok (y :: ys)
  end.

(** A comprehension with a filter, [[x for ... if c]]: the element function
    returns [None] for the elements the condition drops. *)
Fixpoint comprehension_if {A B : Type} (f : A -> result (option B))
  (xs : list A) : result (list B) :=
  match xs with
  | [] => Ok []
  | x :: xs' =>
      y <- f x ;;
      ys <- comprehension_if f xs' ;;
      Ok (match y with Some b => b :: ys | None => ys end)
  end.

(** ** Characters and strings *)

Definition newline : ascii := "010"%char.

Definition code (c : ascii) : N := N_of_ascii c.

(** [\d] and [str.isdecimal] below code point 256. *)
Definition is_digit (c : ascii) : bool :=
  ((48 <=? code c) && (code c <=? 57))%N.

(** [\s] and [str.isspace] below code point 256: tab to carriage return,
    the four separators 28..31, space, NEL and the no-break space. *)
Definition is_space (c : ascii) : bool :=
  (((9 <=? code c) && (code c <=? 13)) || ((28 <=? code c) && (code c <=? 32))
   || (code c =? 133) || (code c =? 160))%N.

Definition is_lower_az (c : ascii) : bool :=
  ((97 <=? code c) && (code c <=? 122))%N.

Definition digit_value (c : ascii) : Z := Z.of_N (code c) - 48.

Fixpoint str_rev_append (s acc : string) : string :=
  match s with
  | EmptyString => acc
  | String c s' => str_rev_append s' (String c acc)
  end.

Definition str_rev (s : string) : string := str_rev_append s EmptyString.

(** The characters [int()] skips around a literal: ASCII white space, NEL
    and the no-break space (the separators 28..31 are not). *)
Definition is_int_space (c : ascii) : bool :=
  (((9 <=? code c) && (code c <=? 13)) || (code c =? 32)
   || (code c =? 133) || (code c =? 160))%N.

Fixpoint lstrip (p : ascii -> bool) (s : string) : string :=
  match s with
  | String c s' => if p c then lstrip p s' else s
  | EmptyString => EmptyString
  end.

(** The string without the leading and trailing characters in [p]. *)
Definition str_strip (p : ascii -> bool) (s : string) : string :=
  str_rev (lstrip p (str_rev (lstrip p s))).

(** [s.split(sep)] for a one-character separator. *)
Fixpoint str_split_aux (sep : ascii) (s : string) (cur : string) : list string :=
  match s with
  | EmptyString => [str_rev cur]
  | String c s' =>
      if Ascii.eqb c sep then str_rev cur :: str_split_aux sep s' EmptyString
      else str_split_aux sep s' (String c cur)
  end.

Definition str_split (sep : ascii) (s : string) : list string :=
  str_split_aux sep s EmptyString.

(** [sep.join(parts)] *)
Fixpoint str_join (sep : string) (parts : list string) : string :=
  match parts with
  | [] => EmptyString
  | [p] => p
  | p :: ps => p ++ sep ++ str_join sep ps
  end.

Fixpoint starts_with (p s : string) : option string :=
  match p, s with
  | EmptyString, _ => Some s
  | String a p', String b s' => if Ascii.eqb a b then starts_with p' s' else None
  | String _ _, EmptyString => None
  end.

(** [s.replace(old, new)] for a non-empty [old]; [fuel] bounds the scan and
    [String.length s] is always enough. *)
Fixpoint replace_aux (fuel : nat) (old new s : string) : string :=
  match fuel with
  | O => s
  | S fuel' =>
      match s with
      | EmptyString => EmptyString
      | String c s' =>
          match starts_with old s with
          | Some tl => new ++ replace_aux fuel' old new tl
          | None => String c (replace_aux fuel' old new s')
          end
      end
  end.

Definition str_replace (old new s : string) : string :=
  replace_aux (String.length s) old new s.

(** Sequence indexing [xs[i]] for a non-negative literal index. *)
Definition index {A : Type} (xs : list A) (i : nat) : result A :=
  match nth_error xs i with
  | Some x => Ok x
  | None => Raise (IndexError "list index out of range")
  end.

(** Digits of an integer literal: at least one digit, single underscores
    allowed between digits. *)
Fixpoint int_digits (s : string) (acc : Z) (after_digit : bool) : option Z :=
  match s with
  | EmptyString => if after_digit then Some acc else None
  | String c s' =>
      if is_digit c then int_digits s' (10 * acc + digit_value c) true
      else if Ascii.eqb c "_" && after_digit then int_digits s' acc false
      else None
  end.

(** [int(s)] for a string argument, base 10. *)
Definition py_int (s : string) : result Z :=
  let t := str_strip is_int_space s in
  let '(negative, body) :=
    match t with
    | String c r =>
        if Ascii.eqb c "-" then (true, r)
        else if Ascii.eqb c "+" then (false, r)
        else (false, t)
    | EmptyString => (false, t)
    end in
  match int_digits body 0 false with
  | Some n => Ok (if negative then - n else n)
  | None => Raise (ValueError "invalid literal for int() with base 10")
  end.

(** [str(n)] for an integer. *)
Definition str_of_int (n : Z) : string :=
  if n <? 0 then "-" ++ NilZero.string_of_uint (N.to_uint (Z.to_N (- n)))
  else NilZero.string_of_uint (N.to_uint (Z.to_N n)).

Fixpoint zeros (n : nat) : string :=
  match n with
  | O => EmptyString
  | S n' => String "0" (zeros n')
  end.

(** The format specification [:02] on an integer: sign first, then zeros up
    to a total width of two. *)
Definition format_02 (n : Z) : string :=
  let sign := if n <? 0 then "-" else "" in
  let digits := NilZero.string_of_uint (N.to_uint (Z.to_N (Z.abs n))) in
  sign ++ zeros (2 - String.length sign - String.length digits) ++ digits.

(** [round(x)] for a float [x], without [ndigits]: the nearest integer, ties
    to even.  A float is its IEEE 754 description: sign, mantissa [m] and
    exponent [e] stand for [m * 2^e]. *)
Definition round_half_even (m e : Z) : Z :=
  if 0 <=? e then m * 2 ^ e
  else
    let d := 2 ^ (- e) in
    let q := m / d in
    let r := m mod d in
    if 2 * r <? d then q
    else if d <? 2 * r then q + 1
    else if Z.even q then q else q + 1.

Definition py_round (x : spec_float) : result Z :=
  match x with
  | S754_zero _ => Ok 0
  | S754_infinity _ => Raise (OverflowError "cannot convert float infinity to integer")
  | S754_nan => Raise (ValueError "cannot convert float NaN to integer")
  | S754_finite s m e =>
      let n := round_half_even (Zpos m) e in
      Ok (if s then - n else n)
  end.

(** ** The [re] engine

    A backtracking matcher for the constructs the module's patterns use.
    Alternatives are tried left to right, greedy repetition tries one more
    iteration before stopping, lazy repetition the other way round: the
    first successful path is the match, as in [re]. *)

Module Re.

Inductive regex : Type :=
| Empty                          (* the empty pattern *)
| Lit (c : ascii)                (* a literal character *)
| Class (p : ascii -> bool)      (* \d, \s, [...] *)
| AnyChar                        (* . *)
| Bol                            (* ^ *)
| Eol                            (* $ *)
| Seq (r1 r2 : regex)
| Alt (r1 r2 : regex)            (* r1|r2 *)
| Star (greedy : bool) (r : regex)   (* r* and r*? *)
| Group (i : nat) (r : regex)    (* capturing group number i *)
| Lookahead (r : regex).         (* (?=r) *)

(** [r?], [r+] and [r{n}] *)
Definition Opt (r : regex) : regex := Alt r Empty.
Definition Plus (r : regex) : regex := Seq r (Star true r).

Fixpoint Times (n : nat) (r : regex) : regex :=
  match n with
  | O => Empty
  | S O => r
  | S n' => Seq r (Times n' r)
  end.

Fixpoint Str (s : string) : regex :=
  match s with
  | EmptyString => Empty
  | String c EmptyString => Lit c
  | String c s' => Seq (Lit c) (Str s')
  end.

Record flags : Type := { multiline : bool; dotall : bool }.

(** A compiled pattern. *)
Record pattern : Type := { pflags : flags; body : regex }.

(** The cursor of a match attempt: the character before it ([None] at the
    start of the string), the text after it and the groups closed so far. *)
Record cursor : Type := {
  prev : option ascii;
  rest : string;
  caps : list (nat * string)
}.

Definition at_bol (fl : flags) (st : cursor) : bool :=
  match prev st with
  | None => true
  | Some c => multiline fl && Ascii.eqb c newline
  end.

(** [$] matches at the end of the string and just before a newline that ends
    the string; with MULTILINE, before every newline. *)
Definition at_eol (fl : flags) (st : cursor) : bool :=
  match rest st with
  | EmptyString => true
  | String c EmptyString => Ascii.eqb c newline
  | String c _ => multiline fl && Ascii.eqb c newline
  end.

Definition advance (st : cursor) : option (ascii * cursor) :=
  match rest st with
  | EmptyString => None
  | String c s' => Some (c, {| prev := Some c; rest := s'; caps := caps st |})
  end.

Fixpoint take (n : nat) (s : string) : string :=
  match n, s with
  | S n', String c s' => String c (take n' s')
  | _, _ => EmptyString
  end.

(** The text between two cursors of one attempt. *)
Definition consumed (st st' : cursor) : string :=
  take (String.length (rest st) - String.length (rest st')) (rest st).

Definition close_group (i : nat) (st st' : cursor) : cursor :=
  {| prev := prev st'; rest := rest st';
     caps := (i, consumed st st') :: caps st' |}.

Definition one (p : ascii -> bool) (st : cursor)
  (k : cursor -> option cursor) : option cursor :=
  match advance st with
  | Some (c, st') => if p c then k st' else None
  | None => None
  end.

Notation "a 'orelse' b" :=
  (match a with Some x => Some x | None => b end) (at level 70).

(** [run fl r st k]: match [r] at [st], then the rest of the pattern [k].
    An iteration of a repetition has to consume text, so the loop of [Star]
    runs at most once per remaining character.  A lookahead consumes
    nothing; the patterns of the module have no group inside one, so none is
    recorded there. *)
Fixpoint run (fl : flags) (r : regex) (st : cursor)
  (k : cursor -> option cursor) {struct r} : option cursor :=
  match r with
  | Empty => k st
  | Lit c => one (Ascii.eqb c) st k
  | Class p => one p st k
  | AnyChar => one (fun c => dotall fl || negb (Ascii.eqb c newline)) st k
  | Bol => if at_bol fl st then k st else None
  | Eol => if at_eol fl st then k st else None
  | Seq r1 r2 => run fl r1 st (fun st' => run fl r2 st' k)
  | Alt r1 r2 => run fl r1 st k orelse run fl r2 st k
  | Star greedy r1 =>
      (fix loop (fuel : nat) (st : cursor) {struct fuel} : option cursor :=
         match fuel with
         | O => k st
         | S fuel' =>
             let again (_ : unit) :=
               run fl r1 st (fun st' =>
                 if (String.length (rest st') <? String.length (rest st))%nat
                 then loop fuel' st' else None) in
             if greedy then again tt orelse k st
             else k st orelse again tt
         end) (String.length (rest st)) st
  | Group i r1 => run fl r1 st (fun st' => k (close_group i st st'))
  | Lookahead r1 =>
      match run fl r1 st Some with
      | Some _ => k st
      | None => None
      end
  end.

Definition start (s : string) : cursor :=
  {| prev := None; rest := s; caps := [] |}.

(** [p.match(s)]: a match at the start of [s]; the result is the cursor at
    the end of the match. *)
Definition match_ (p : pattern) (s : string) : option cursor :=
  run (pflags p) (body p) (start s) Some.

(** The leftmost match at or after a cursor: where it starts and ends. *)
Fixpoint search_from (p : pattern) (before : option ascii) (s : string)
  : option (cursor * cursor) :=
  let st := {| prev := before; rest := s; caps := [] |} in
  match run (pflags p) (body p) st Some with
  | Some st' => Some (st, st')
  | None =>
      match s with
      | EmptyString => None
      | String c s' => search_from p (Some c) s'
      end
  end.

(** Truth value of a match result: a match object is true, [None] false. *)
Definition found (m : option cursor) : bool :=
  match m with
  | Some _ => true
  | None => false
  end.

(** [p.search(s)] *)
Definition search (p : pattern) (s : string) : option cursor :=
  option_map snd (search_from p None s).

(** [m.group(i)]: the text of group [i], [None] when it did not take part. *)
Fixpoint group (i : nat) (cs : list (nat * string)) : option string :=
  match cs with
  | [] => None
  | (j, s) :: cs' => if Nat.eqb i j then Some s else group i cs'
  end.

Definition group_or_empty (i : nat) (m : cursor) : string :=
  match group i (caps m) with
  | Some s => s
  | None => EmptyString
  end.

(** The successive non-overlapping matches, left to right.  After an empty
    match the scan moves on by one character. *)
Fixpoint matches_from (p : pattern) (fuel : nat) (before : option ascii)
  (s : string) : list cursor :=
  match fuel with
  | O => []
  | S fuel' =>
      match search_from p before s with
      | None => []
      | Some (st, st') =>
          st' ::
          if (String.length (rest st') <? String.length (rest st))%nat
          then matches_from p fuel' (prev st') (rest st')
          else match rest st' with
               | EmptyString => []
               | String c s' => matches_from p fuel' (Some c) s'
               end
      end
  end.

(** [p.findall(s)] for a pattern with two groups: the list of pairs
    [(group 1, group 2)]. *)
Definition findall2 (p : pattern) (s : string) : list (string * string) :=
  map (fun m => (group_or_empty 1 m, group_or_empty 2 m))
      (matches_from p (S (String.length s)) None s).

End Re.

(** ** Module constants *)

Definition BASE_URI : string := "https://connect.monstercat.com/api".

Definition MULTI_TYPES : list string := ["Album"; "EP"].
Definition LONG_TYPES : list string := ["Mixes"; "Podcast"].

Definition digit : Re.regex := Re.Class is_digit.
Definition space : Re.regex := Re.Class is_space.

Definition no_flags : Re.flags := {| Re.multiline := false; Re.dotall := false |}.

Definition compile (r : Re.regex) : Re.pattern :=
  {| Re.pflags := no_flags; Re.body := r |}.

(** [(?sm)(^(?:\d{2}:)?\d{2}:\d{2})\s(.*?)(?=(?:^\d{2}:\d{2}:\d{2}\s)|$)] *)
Definition TRACKLIST_REGEX : Re.pattern :=
  {| Re.pflags := {| Re.multiline := true; Re.dotall := true |};
     Re.body :=
       Re.Seq
         (Re.Group 1
            (Re.Seq Re.Bol
               (Re.Seq (Re.Opt (Re.Seq (Re.Times 2 digit) (Re.Lit ":")))
                  (Re.Seq (Re.Times 2 digit)
                     (Re.Seq (Re.Lit ":") (Re.Times 2 digit))))))
         (Re.Seq space
            (Re.Seq (Re.Group 2 (Re.Star false Re.AnyChar))
               (Re.Lookahead
                  (Re.Alt
                     (Re.Seq Re.Bol
                        (Re.Seq (Re.Times 2 digit)
                           (Re.Seq (Re.Lit ":")
                              (Re.Seq (Re.Times 2 digit)
                                 (Re.Seq (Re.Lit ":")
                                    (Re.Seq (Re.Times 2 digit) space))))))
                     Re.Eol)))) |}.

(** [^(?:\d{2}:)?\d{2}:\d{2}$] *)
Definition DURATION_REGEX : Re.pattern :=
  compile
    (Re.Seq Re.Bol
       (Re.Seq (Re.Opt (Re.Seq (Re.Times 2 digit) (Re.Lit ":")))
          (Re.Seq (Re.Times 2 digit)
             (Re.Seq (Re.Lit ":")
                (Re.Seq (Re.Times 2 digit) Re.Eol))))).

(** ** Duration codec *)

(** The argument of [gen_duration]: annotated [int], and tested for
    [float]. *)
Inductive seconds_arg : Type :=
| IntSeconds (n : Z)
| FloatSeconds (x : spec_float).

Definition gen_duration (seconds : seconds_arg) : result string :=
  seconds <- match seconds with
             | FloatSeconds x => py_round x
             | IntSeconds n => Ok n
             end ;;
  let '(minutes, seconds) := (seconds / 60, seconds mod 60) in
  let '(hours, minutes) := (minutes / 60, minutes mod 60) in
  Ok (if negb (hours =? 0)
      then format_02 hours ++ ":" ++ format_02 minutes ++ ":" ++ format_02 seconds
      else format_02 minutes ++ ":" ++ format_02 seconds).

Definition duration_format_error : exn :=
  ValueError "Time passed does not match required format: `XX:XX` or `XX:XX:XX`".

Definition parse_duration (dur : string) : result Z :=
  match Re.match_ DURATION_REGEX dur with
  | None => Raise duration_format_error
  | Some _ =>
      let parts := str_split ":" dur in
      let seconds := 0 in
      if (List.length parts =? 3)%nat then
        p0 <- index parts 0 ;; h <- py_int p0 ;;
        let seconds := seconds + h * 60 * 60 in
        p1 <- index parts 1 ;; m <- py_int p1 ;;
        let seconds := seconds + m * 60 in
        p2 <- index parts 2 ;; s <- py_int p2 ;;
        let seconds := seconds + s in
        Ok seconds
      else
        p0 <- index parts 0 ;; m <- py_int p0 ;;
        let seconds := seconds + m * 60 in
        p1 <- index parts 1 ;; s <- py_int p1 ;;
        let seconds := seconds + s in
        Ok seconds
  end.

(** ** Dynamic values

    The values the module handles without static types: decoded JSON
    documents, dictionary keys and compiled patterns. *)

Inductive key : Type :=
| KStr (s : string)
| KInt (n : Z).

Definition key_eqb (a b : key) : bool :=
  match a, b with
  | KStr s, KStr t => String.eqb s t
  | KInt m, KInt n => m =? n
  | _, _ => false
  end.

#[warnings="-register-all"]
Inductive value : Type :=
| VNone
| VBool (b : bool)
| VInt (n : Z)
| VFloat (x : spec_float)
| VStr (s : string)
| VList (xs : list value)
| VTuple (xs : list value)
| VDict (items : list (key * value))   (* in insertion order *)
| VPattern (p : Re.pattern).

(** A dict literal with string keys. *)
Definition dict (rows : list (string * value)) : value :=
  VDict (map (fun kv => (KStr (fst kv), snd kv)) rows).

Definition type_name (v : value) : string :=
  match v with
  | VNone => "NoneType"
  | VBool _ => "bool"
  | VInt _ => "int"
  | VFloat _ => "float"
  | VStr _ => "str"
  | VList _ => "list"
  | VTuple _ => "tuple"
  | VDict _ => "dict"
  | VPattern _ => "re.Pattern"
  end.

(** Truth value of an object in a condition. *)
Definition truthy (v : value) : bool :=
  match v with
  | VNone => false
  | VBool b => b
  | VInt n => negb (n =? 0)
  | VFloat (S754_zero _) => false
  | VFloat _ => true
  | VStr s => negb (String.eqb s "")
  | VList xs | VTuple xs => match xs with [] => false | _ => true end
  | VDict items => match items with [] => false | _ => true end
  | VPattern _ => true
  end.

Fixpoint lookup (k : key) (items : list (key * value)) : option value :=
  match items with
  | [] => None
  | (k', v) :: items' => if key_eqb k k' then Some v else lookup k items'
  end.

Definition value_of_key (k : key) : value :=
  match k with
  | KStr s => VStr s
  | KInt n => VInt n
  end.

Definition chars (s : string) : list value :=
  map (fun c => VStr (String c EmptyString)) (list_ascii_of_string s).

(** Iterating over an object, as [for] and unpacking do: a dict yields its
    keys, a string its characters. *)
Definition iterate (v : value) : result (list value) :=
  match v with
  | VList xs | VTuple xs => Ok xs
  | VDict items => Ok (map (fun kv => value_of_key (fst kv)) items)
  | VStr s => Ok (chars s)
  | _ => Raise (TypeError ("'" ++ type_name v ++ "' object is not iterable"))
  end.

(** The targets [x, y] of [for x, y in ...]: the element is iterated and has
    to yield exactly two values. *)
Definition unpack2 (v : value) : result (value * value) :=
  xs <- iterate v ;;
  match xs with
  | [x; y] => Ok (x, y)
  | _ :: _ :: _ :: _ => Raise (ValueError "too many values to unpack (expected 2)")
  | _ => Raise (ValueError "not enough values to unpack (expected 2)")
  end.

Definition no_attribute (v : value) (name : string) : exn :=
  AttributeError ("'" ++ type_name v ++ "' object has no attribute '" ++ name ++ "'").

(** [y.match(s)] and [y.search(s)] on an arbitrary object [y]: only a
    compiled pattern has these methods.  The result is the truth value of
    the match object. *)
Definition call_match (y : value) (s : string) : result bool :=
  match y with
  | VPattern p => Ok (Re.found (Re.match_ p s))
  | _ => Raise (no_attribute y "match")
  end.

Definition call_search (y : value) (s : string) : result bool :=
  match y with
  | VPattern p => Ok (Re.found (Re.search p s))
  | _ => Raise (no_attribute y "search")
  end.

(** ** Classifier tables *)

(** [(?:https?://)?] and [(?:www\.)?] *)
Definition scheme : Re.regex :=
  Re.Opt (Re.Seq (Re.Str "http") (Re.Seq (Re.Opt (Re.Lit "s")) (Re.Str "://"))).

Definition www : Re.regex := Re.Opt (Re.Str "www.").

Definition host (prefix : Re.regex) (name : string) : value :=
  VPattern (compile (Re.Seq Re.Bol (Re.Seq scheme (Re.Seq prefix (Re.Str name))))).

Definition URL_REGEXES : value :=
  dict
    [ ("Facebook", host www "facebook.com");
      ("SoundCloud", host www "soundcloud.com");
      ("Instagram", host www "instagram.com");
      (* ^(?:https?://)?(?:(?:www\.|m.)?youtube\.com|youtu\.be) *)
      ("YouTube",
       VPattern (compile
         (Re.Seq Re.Bol
            (Re.Seq scheme
               (Re.Alt
                  (Re.Seq
                     (Re.Opt (Re.Alt (Re.Str "www.") (Re.Seq (Re.Lit "m") Re.AnyChar)))
                     (Re.Str "youtube.com"))
                  (Re.Str "youtu.be"))))));
      ("Twitter", host www "twitter.com");
      ("Spotify", host Re.Empty "open.spotify.com");
      ("Beatport", host www "beatport.com");
      ("iTunes", host Re.Empty "itunes.apple.com");
      ("Mixcloud", host www "mixcloud.com");
      ("Bandcamp", host Re.Empty "music.monstercat.com");
      ("Google Play", host Re.Empty "play.google.com") ].

(** [^PREFIX\d{3}$] *)
Definition catalog (prefix : string) : Re.regex :=
  Re.Seq Re.Bol (Re.Seq (Re.Str prefix) (Re.Seq (Re.Times 3 digit) Re.Eol)).

Definition CATALOG_REGEXES : value :=
  dict
    [ (* ^MCUV-\d+$|^MC\d{3}$ *)
      ("Album",
       VPattern (compile
         (Re.Alt
            (Re.Seq Re.Bol (Re.Seq (Re.Str "MCUV-") (Re.Seq (Re.Plus digit) Re.Eol)))
            (catalog "MC"))));
      ("Best of Compilation", VPattern (compile (catalog "MCB")));
      ("Special Compilation", VPattern (compile (catalog "MCS")));
      (* ^MCX004-\d$ *)
      ("5 Year Anniversary Track",
       VPattern (compile
         (Re.Seq Re.Bol (Re.Seq (Re.Str "MCX004-") (Re.Seq digit Re.Eol)))));
      ("Call of the Wild", VPattern (compile (catalog "COTW")));
      ("Podcast", VPattern (compile (catalog "MCP")));
      ("Rocket League Album", VPattern (compile (catalog "MCRL")));
      ("Long Play", VPattern (compile (catalog "MCLP")));
      ("Extended Play", VPattern (compile (catalog "MCEP")));
      ("Free Download", VPattern (compile (catalog "MCF")));
      ("Single", VPattern (compile (catalog "MCS"))) ].

Definition class_09az (c : ascii) : bool := is_digit c || is_lower_az c.

(** [^(?:https?://)?prf.hn/click/camref:[\da-z]+/pubref:[\da-z]+/destination:.*$] *)
Definition PERFORMANCE_HORIZON_REGEX : Re.pattern :=
  compile
    (Re.Seq Re.Bol
       (Re.Seq scheme
          (Re.Seq (Re.Str "prf")
             (Re.Seq Re.AnyChar
                (Re.Seq (Re.Str "hn/click/camref:")
                   (Re.Seq (Re.Plus (Re.Class class_09az))
                      (Re.Seq (Re.Str "/pubref:")
                         (Re.Seq (Re.Plus (Re.Class class_09az))
                            (Re.Seq (Re.Str "/destination:")
                               (Re.Seq (Re.Star true Re.AnyChar) Re.Eol)))))))))).

(** [destination:] followed by group 1, [.*], and [$] *)
Definition PERFORMANCE_HORIZON_DEST_REGEX : Re.pattern :=
  compile
    (Re.Seq (Re.Str "destination:")
       (Re.Seq (Re.Group 1 (Re.Star true Re.AnyChar)) Re.Eol)).

(** ** Classifiers *)

Section Classifiers.

(** [urllib.parse.unquote] *)
Variable unquote : string -> string.

(** [[x for x, y in table if y.METHOD(s)]] *)
Definition names_matching (call : value -> string -> result bool)
  (table : value) (s : string) : result (list value) :=
  elements <- iterate table ;;
  comprehension_if
    (fun element =>
       '(x, y) <- unpack2 element ;;
       hit <- call y s ;;
       Ok (if hit then Some x else None))
    elements.

Definition get_name (url : string) : result value :=
  name <- names_matching call_search URL_REGEXES url ;;
  match name with
  | first :: _ => Ok first
  | [] =>
      if Re.found (Re.search PERFORMANCE_HORIZON_REGEX url) then
        match Re.search PERFORMANCE_HORIZON_DEST_REGEX url with
        | Some m =>
            match Re.group 1 (Re.caps m) with
            | Some dest => Ok (VStr (unquote dest))
            | None => Raise (TypeError "unquote: expected a string")
            end
        | None => Raise (no_attribute VNone "group")
        end
      else Ok (VStr url)
  end.

End Classifiers.

Definition is_catalog_id (id : string) : result bool :=
  hits <- names_matching call_match CATALOG_REGEXES id ;;
  Ok (match hits with [] => false | _ => true end).

Definition get_type_from_catalog_id (id : string) : result value :=
  type <- names_matching call_match CATALOG_REGEXES id ;;
  match type with
  | first :: _ => Ok first
  | [] => Ok VNone
  end.

(** [gen_search(search, *fields)] *)
Definition gen_search (search : string) (fields : list string) : string :=
  "?fuzzyOr=" ++ str_join "," (map (fun x => x ++ "," ++ search) fields).

(** ** Operations on dynamic values *)

Definition not_subscriptable (v : value) : exn :=
  TypeError ("'" ++ type_name v ++ "' object is not subscriptable").

(** [v[k]] for a string key. *)
Definition subscript (v : value) (k : string) : result value :=
  match v with
  | VDict items =>
      match lookup (KStr k) items with
      | Some x => Ok x
      | None => Raise (KeyError k)
      end
  | VList _ => Raise (TypeError "list indices must be integers or slices, not str")
  | VTuple _ => Raise (TypeError "tuple indices must be integers or slices, not str")
  | VStr _ => Raise (TypeError "string indices must be integers")
  | _ => Raise (not_subscriptable v)
  end.

(** [v[i]] for a literal index [i >= 0]. *)
Definition item (v : value) (i : nat) : result value :=
  match v with
  | VList xs => index xs i
  | VTuple xs =>
      match nth_error xs i with
      | Some x => Ok x
      | None => Raise (IndexError "tuple index out of range")
      end
  | VStr s =>
      match String.get i s with
      | Some c => Ok (VStr (String c EmptyString))
      | None => Raise (IndexError "string index out of range")
      end
  | VDict items =>
      match lookup (KInt (Z.of_nat i)) items with
      | Some x => Ok x
      | None => Raise (KeyError (str_of_int (Z.of_nat i)))
      end
  | _ => Raise (not_subscriptable v)
  end.

Fixpoint is_substring (p s : string) : bool :=
  match starts_with p s with
  | Some _ => true
  | None =>
      match s with
      | EmptyString => false
      | String _ s' => is_substring p s'
      end
  end.

(** [v == s] for a string [s]. *)
Definition equals_str (v : value) (s : string) : bool :=
  match v with
  | VStr t => String.eqb t s
  | _ => false
  end.

(** [k in v] for a string [k]. *)
Definition contains (k : string) (v : value) : result bool :=
  match v with
  | VDict items => Ok (match lookup (KStr k) items with Some _ => true | None => false end)
  | VList xs | VTuple xs => Ok (existsb (fun x => equals_str x k) xs)
  | VStr s => Ok (is_substring k s)
  | _ => Raise (TypeError ("argument of type '" ++ type_name v ++ "' is not iterable"))
  end.

(** [v in names] for a tuple of strings. *)
Definition among (v : value) (names : list string) : bool :=
  existsb (equals_str v) names.

(** [v.get(k)] *)
Definition dict_get (v : value) (k : string) : result value :=
  match v with
  | VDict items => Ok (match lookup (KStr k) items with Some x => x | None => VNone end)
  | _ => Raise (no_attribute v "get")
  end.

(** [v.replace(old, new)] *)
Definition call_replace (v : value) (old new : string) : result string :=
  match v with
  | VStr s => Ok (str_replace old new s)
  | _ => Raise (no_attribute v "replace")
  end.

(** [round(v)] *)
Definition round_value (v : value) : result Z :=
  match v with
  | VInt n => Ok n
  | VBool b => Ok (if b then 1 else 0)
  | VFloat x => py_round x
  | _ => Raise (TypeError ("type " ++ type_name v ++ " doesn't define __round__ method"))
  end.

(** ** Remote calls

    An asynchronous function is the tree of the calls it awaits: an HTTP GET
    on the client session, answered by a response or by an exception of the
    transport, and a [youtube_dl] lookup run on the executor. *)

Record response : Type := {
  status : Z;
  json : result value      (* what [await r.json()] gives *)
}.

Inductive io (A : Type) : Type :=
| Return (a : A)
| HttpGet (url : string) (k : result response -> io A)
| ExtractInfo (query : string) (k : result value -> io A).

Arguments Return {A} a.
Arguments HttpGet {A} url k.
Arguments ExtractInfo {A} query k.

Fixpoint io_bind {A B : Type} (m : io A) (f : A -> io B) : io B :=
  match m with
  | Return a => f a
  | HttpGet url k => HttpGet url (fun r => io_bind (k r) f)
  | ExtractInfo q k => ExtractInfo q (fun r => io_bind (k r) f)
  end.

(** Sequencing of awaited calls that can raise. *)
Definition await {A B : Type} (m : io (result A)) (f : A -> io (result B))
  : io (result B) :=
  io_bind m (fun r =>
    match r with
    | Ok a => f a
    | Raise e => Return (Raise e)
    end).

Definition throw {A : Type} (e : exn) : io (result A) := Return (Raise e).

(** A pure step inside an asynchronous function. *)
Definition lift {A : Type} (r : result A) : io (result A) := Return r.

Declare Scope io_scope.
Delimit Scope io_scope with io.
Notation "x <- m ;; k" := (await m (fun x => k))
  (at level 61, m at next level, right associativity) : io_scope.

(** Runs a tree against a transport and a lookup service; the answer of a
    service may depend on the calls made before.  The result comes with the
    log of the URLs requested. *)
Fixpoint perform {A : Type}
  (transport : list string -> string -> result response)
  (lookup_service : string -> result value)
  (m : io A) (log : list string) : A * list string :=
  match m with
  | Return a => (a, log)
  | HttpGet url k =>
      perform transport lookup_service (k (transport log url)) (log ++ [url])
  | ExtractInfo q k =>
      perform transport lookup_service (k (lookup_service q)) log
  end.

(** ** Catalog resolver: [ConnectGetter] *)

Section ConnectGetter.

(** [str.upper], [str.lower], [urllib.parse.quote] and [str()] of a value
    interpolated in an f-string. *)
Variables upper lower quote : string -> string.
Variable py_str : value -> string.

Definition invalid_response_code (st : Z) : exn :=
  ValueError ("Invalid response code: `" ++ str_of_int st ++ "`").

(** The block [async with self.session.get(url) as r: ...] that every
    lookup repeats: the decoded body of a 2xx response, [ValueError]
    otherwise. *)
Definition fetch (url : string) : io (result value) :=
  HttpGet url (fun r =>
    match r with
    | Raise e => throw e
    | Ok r =>
        if (200 <=? status r) && (status r <? 300) then lift (json r)
        else throw (invalid_response_code (status r))
    end).

Definition release_tracks_url (data : value) : result string :=
  id <- subscript data "_id" ;;
  Ok (BASE_URI ++ "/catalog/release/" ++ py_str id ++ "/tracks").

Definition get_release (search : value) (limit : Z)
  : io (result (value * value)) :=
  match search with
  | VStr search =>
    if String.eqb search "" then throw (ValueError "Nothing to search.")
    else
      (is_id <- lift (is_catalog_id (upper search)) ;;
       if is_id : bool then
         let url := BASE_URI ++ "/catalog/release/" ++ upper search in
         data <- fetch url ;;
         has_error <- lift (contains "error" data) ;;
         other <- lift (if has_error : bool
                        then (msg <- subscript data "message" ;;
                              Ok (negb (equals_str msg "The specified resource was not found.")))%res
                        else Ok false) ;;
         if other : bool then
           msg <- lift (subscript data "message") ;;
           throw (ValueError (py_str msg))
         else if has_error then throw (ValueError "Release not found.")
         else
           url <- lift (release_tracks_url data) ;;
           tracks <- fetch url ;;
           results <- lift (subscript tracks "results") ;;
           lift (Ok (data, results))
       else
         let song := quote (lower search) in
         let search := gen_search song ["title"; "renderedArtists"; "catalogId"] in
         let url := BASE_URI ++ "/catalog/release" ++ search
                    ++ "&limit=" ++ str_of_int limit in
         data <- fetch url ;;
         results <- lift (subscript data "results") ;;
         if negb (truthy results) then
           throw (ValueError ("No results found for `" ++ search ++ "`"))
         else
           data <- lift (item results 0) ;;
           url <- lift (release_tracks_url data) ;;
           tracks <- fetch url ;;
           results <- lift (subscript tracks "results") ;;
           lift (Ok (data, results)))%io
  | _ => throw (TypeError "search is not str.")
  end.

(** In [get_artist] the emptiness test reads [elif not str]: it tests the
    type [str], which is always true, so the branch is never taken. *)
Definition str_type_is_truthy : bool := true.

Definition get_artist (search : value) (limit : Z)
  : io (result (value * value)) :=
  match search with
  | VStr search =>
    if negb str_type_is_truthy then throw (ValueError "Nothing to search.")
    else
      (let artist := quote (str_replace " " "-" (str_replace " & " "-" (lower search))) in
       let url := BASE_URI ++ "/catalog/artist/" ++ artist in
       data <- fetch url ;;
       has_error <- lift (contains "error" data) ;;
       other <- lift (if has_error : bool
                      then (msg <- subscript data "message" ;;
                            Ok (negb (equals_str msg "Artist not found.")))%res
                      else Ok false) ;;
       data <-
         (if other : bool then
            msg <- lift (subscript data "message") ;;
            throw (ValueError (py_str msg))
          else if has_error then
            let artist := quote search in
            let search := gen_search artist ["name"; "vanityUri"] in
            let url := BASE_URI ++ "/catalog/artist" ++ search
                       ++ "&limit=" ++ str_of_int limit in
            data <- fetch url ;;
            results <- lift (subscript data "results") ;;
            if negb (truthy results) then throw (ValueError "Artist not found.")
            else lift (item results 0)
          else lift (Ok data)) ;;
       vanity <- lift (subscript data "vanityUri") ;;
       let url := BASE_URI ++ "/catalog/artist/" ++ py_str vanity ++ "/releases" in
       releases <- fetch url ;;
       results <- lift (subscript releases "results") ;;
       lift (Ok (data, results)))%io
  | _ => throw (TypeError "search is not str.")
  end.

End ConnectGetter.

(** ** Objects and methods

    An instance is its class name and its attribute dictionary; an attribute
    that was never assigned, or was deleted, is absent.  A method takes
    [self] and gives back its outcome together with [self] as it left it: an
    assignment made before an exception stays. *)

Record object : Type := {
  class_name : string;
  attrs : list (string * value)
}.

Fixpoint assoc_get (name : string) (l : list (string * value)) : option value :=
  match l with
  | [] => None
  | (n, v) :: l' => if String.eqb name n then Some v else assoc_get name l'
  end.

Fixpoint assoc_set (name : string) (v : value) (l : list (string * value))
  : list (string * value) :=
  match l with
  | [] => [(name, v)]
  | (n, w) :: l' =>
      if String.eqb name n then (n, v) :: l' else (n, w) :: assoc_set name v l'
  end.

Fixpoint assoc_del (name : string) (l : list (string * value))
  : list (string * value) :=
  match l with
  | [] => []
  | (n, w) :: l' => if String.eqb name n then l' else (n, w) :: assoc_del name l'
  end.

Definition hasattr (self : object) (name : string) : bool :=
  match assoc_get name (attrs self) with
  | Some _ => true
  | None => false
  end.

Definition method (A : Type) : Type := object -> result A * object.

Definition ret {A : Type} (a : A) : method A := fun self => (Ok a, self).

Definition raise {A : Type} (e : exn) : method A := fun self => (Raise e, self).

(** Evaluation of an expression that does not touch [self]. *)
Definition eval {A : Type} (r : result A) : method A := fun self => (r, self).

Definition mbind {A B : Type} (m : method A) (f : A -> method B) : method B :=
  fun self =>
    match m self with
    | (Ok a, self') => f a self'
    | (Raise e, self') => (Raise e, self')
    end.

(** [self.name] *)
Definition getattr (name : string) : method value :=
  fun self =>
    match assoc_get name (attrs self) with
    | Some v => (Ok v, self)
    | None =>
        (Raise (AttributeError ("'" ++ class_name self
                                ++ "' object has no attribute '" ++ name ++ "'")),
         self)
    end.

(** [self.name = v] *)
Definition setattr (name : string) (v : value) : method unit :=
  fun self =>
    (Ok tt, {| class_name := class_name self;
               attrs := assoc_set name v (attrs self) |}).

(** [del self.name] *)
Definition delattr (name : string) : method unit :=
  fun self =>
    match assoc_get name (attrs self) with
    | Some _ =>
        (Ok tt, {| class_name := class_name self;
                   attrs := assoc_del name (attrs self) |})
    | None => (Raise (AttributeError name), self)
    end.

Declare Scope method_scope.
Delimit Scope method_scope with method.
Notation "x <- m ;; k" := (mbind m (fun x => k))
  (at level 61, m at next level, right associativity) : method_scope.
Notation "m ;; k" := (mbind m (fun _ => k))
  (at level 61, right associativity) : method_scope.

(** An [async] method: the calls it awaits, then outcome and [self]. *)
Definition task (A : Type) : Type := object -> io (result A * object).

Definition tbind {A B : Type} (m : task A) (f : A -> task B) : task B :=
  fun self =>
    io_bind (m self) (fun out =>
      match out with
      | (Ok a, self') => f a self'
      | (Raise e, self') => Return (Raise e, self')
      end).

(** A synchronous step of an [async] method, and an awaited call. *)
Definition sync {A : Type} (m : method A) : task A := fun self => Return (m self).

Definition awaiting {A : Type} (m : io (result A)) : task A :=
  fun self => io_bind m (fun r => Return (r, self)).

Declare Scope task_scope.
Delimit Scope task_scope with task.
Notation "x <- m ;; k" := (tbind m (fun x => k))
  (at level 61, m at next level, right associativity) : task_scope.
Notation "m ;; k" := (tbind m (fun _ => k))
  (at level 61, right associativity) : task_scope.

(** [d[k] = v] on a dict. *)
Fixpoint items_set (k : key) (v : value) (items : list (key * value))
  : list (key * value) :=
  match items with
  | [] => [(k, v)]
  | (k', w) :: items' =>
      if key_eqb k k' then (k', v) :: items' else (k', w) :: items_set k v items'
  end.

Definition setitem (d : value) (k : key) (v : value) : result value :=
  match d with
  | VDict items => Ok (VDict (items_set k v items))
  | _ => Raise (TypeError ("'" ++ type_name d
                           ++ "' object does not support item assignment"))
  end.

(** [xs.values()] on a list: lists have no such method. *)
Definition list_values {A : Type} (xs : list A) : result (list A) :=
  Raise (no_attribute (VList []) "values").

(** The string argument of [findall] and [re.search]. *)
Definition as_text (v : value) : result string :=
  match v with
  | VStr s => Ok s
  | _ => Raise (TypeError "expected string or bytes-like object")
  end.

(** A [for] loop whose body updates a local variable and [self]. *)
Fixpoint for_each {A L : Type} (xs : list A) (body : A -> L -> method L)
  (local : L) : method L :=
  match xs with
  | [] => ret local
  | x :: xs' => mbind (body x local) (for_each xs' body)
  end.

(** [MCSource.__init__]; the executor, the event loop and the creation
    timestamp play no part in what follows and are left out. *)
Definition MCSource_init (cls : string) (track : value) : object :=
  {| class_name := cls;
     attrs := [("track", track); ("_has_connect_data", VBool false)] |}.

Definition wrong_type_multi : exn :=
  ValueError "Release detected to be an album, or album-like. Please use MCMultiSource.".

Definition wrong_type_long : exn :=
  ValueError "Release detected to be long. Please use MCLongSource.".

Definition blob_url (py_str : value -> string) (track : value) : result value :=
  albums <- subscript track "albums" ;;
  album <- item albums 0 ;;
  hash <- subscript album "streamHash" ;;
  Ok (VStr ("https://s3.amazonaws.com/data.monstercat.com/blobs/" ++ py_str hash)).

(** [v + s] for a string [s]: only a string can be extended by one. *)
Definition double_quote : string := String "034"%char EmptyString.

Definition add_str (v : value) (s : string) : result value :=
  match v with
  | VStr t => Ok (VStr (t ++ s))
  | VList _ | VTuple _ =>
      Raise (TypeError ("can only concatenate " ++ type_name v ++ " (not "
                        ++ double_quote ++ "str" ++ double_quote ++ ") to "
                        ++ type_name v))
  | _ =>
      Raise (TypeError ("unsupported operand type(s) for +: '" ++ type_name v
                        ++ "' and 'str'"))
  end.

(** ** Audio sources *)

Section Sources.

Variables upper lower quote : string -> string.
Variable py_str : value -> string.

(** [datetime.strptime(v, '%Y-%m-%dT%H:%M:%S.%fZ')] *)
Variable strptime : value -> result value.

(** [discord.FFmpegPCMAudio]: the constructor and the methods [read] and
    [cleanup] of the decoder it returns; a method gives its outcome and the
    decoder as the call left it. *)
Variable FFmpegPCMAudio : value -> result value.
Variable audio_read : value -> result value * value.
Variable audio_cleanup : value -> result unit * value.

Local Open Scope method_scope.

Definition MCSingleSource_set_connect_data (data tracks : value) : method unit :=
  type <- eval (subscript data "type") ;;
  if among type MULTI_TYPES then raise wrong_type_multi
  else
    type <- eval (subscript data "type") ;;
    if among type LONG_TYPES then raise wrong_type_long
    else
      track <- eval (item tracks 0) ;;
      stream_url <- eval (blob_url py_str track) ;;
      setattr "stream_url" stream_url ;;
      release_date <- eval (d <- subscript data "releaseDate" ;; strptime d)%res ;;
      setattr "release_date" release_date ;;
      title <- eval (subscript data "title") ;;
      setattr "title" title ;;
      artists <- eval (subscript data "renderedArtists") ;;
      setattr "artists" artists ;;
      thumb <- eval (c <- subscript data "coverUrl" ;;
                     c <- call_replace c " " "%20" ;;
                     Ok (VStr (c ++ "?image_width=256")))%res ;;
      setattr "thumb" thumb ;;
      bpm <- eval (b <- subscript track "bpm" ;; round_value b)%res ;;
      setattr "bpm" (VInt bpm) ;;
      duration <- eval (d <- subscript track "duration" ;; round_value d)%res ;;
      setattr "duration" (VInt duration) ;;
      genre <- eval (g <- dict_get track "genre" ;;
                     if truthy g then Ok g
                     else gs <- subscript track "genres" ;; item gs 0)%res ;;
      setattr "genre" genre ;;
      setattr "_has_connect_data" (VBool true).

(** [MCSingleSource(track, data, tracks)]; an exception raised by the
    constructor leaves no instance. *)
Definition MCSingleSource_init (track data tracks : value) : result object :=
  let self := MCSource_init "MCSingleSource" track in
  let body :=
    setattr "type" (VStr "single") ;;
    setattr "_data" data ;;
    if truthy data && truthy tracks
    then MCSingleSource_set_connect_data data tracks
    else ret tt in
  match body self with
  | (Ok _, self') => Ok self'
  | (Raise e, _) => Raise e
  end.

(** [^(?:https?://)?(?:www\.)?youtube\.com], the pattern [get_info] gives
    to [re.search]. *)
Definition youtube_link : Re.pattern :=
  compile (Re.Seq Re.Bol (Re.Seq scheme (Re.Seq www (Re.Str "youtube.com")))).

(** [[x for x in urls if re.search(youtube_link, x)]] *)
Definition youtube_links (urls : value) : result (list value) :=
  (xs <- iterate urls ;;
   comprehension_if
     (fun x => s <- as_text x ;;
               Ok (if Re.found (Re.search youtube_link s) then Some x else None))
     xs)%res.

Local Open Scope task_scope.

Definition MCSingleSource_get_info : task unit :=
  has_connect_data <- sync (getattr "_has_connect_data") ;;
  (if negb (truthy has_connect_data) then
     track <- sync (getattr "track") ;;
     release <- awaiting (get_release upper lower quote py_str track 10) ;;
     let '(data, tracks) := release in
     sync (setattr "_data" data) ;;
     sync (MCSingleSource_set_connect_data data tracks)
   else sync (ret tt)) ;;
  fun self =>
    if negb (hasattr self "url") then
      (data <- sync (getattr "_data") ;;
       links <- sync (eval (if truthy data
                            then (urls <- subscript data "urls" ;; youtube_links urls)%res
                            else Ok [])) ;;
       match links with
       | _ :: _ =>
           data <- sync (getattr "_data") ;;
           url <- sync (eval (urls <- subscript data "urls" ;;
                              links <- youtube_links urls ;;
                              index links 0)%res) ;;
           sync (setattr "url" url) ;;
           sync (delattr "_data")
       | [] =>
           artists <- sync (getattr "artists") ;;
           title <- sync (getattr "title") ;;
           data <- (fun self =>
                      ExtractInfo (py_str artists ++ " - " ++ py_str title)
                                  (fun r => Return (r, self))) ;;
           wrapped <- sync (eval (contains "entries" data)) ;;
           data <- sync (eval (if wrapped : bool
                               then (es <- subscript data "entries" ;; item es 0)%res
                               else Ok data)) ;;
           url <- sync (eval (subscript data "webpage_url")) ;;
           sync (setattr "url" url)
       end) self
    else Return (Ok tt, self).

Local Open Scope method_scope.

(** [load] has no [await] in its body: it is modelled as the method it is. *)
Definition load : method unit :=
  stream_url <- getattr "stream_url" ;;
  source <- eval (FFmpegPCMAudio stream_url) ;;
  setattr "source" source.

(** [self.source.METHOD()]: the decoder bound to [source] is looked up, the
    call is made on it, and the attribute keeps referring to the decoder. *)
Definition on_source {A : Type} (call : value -> result A * value) : method A :=
  source <- getattr "source" ;;
  let '(outcome, source') := call source in
  setattr "source" source' ;;
  eval outcome.

Definition read : method value := on_source audio_read.

Definition cleanup : method unit := on_source audio_cleanup.

(** [MCLongSource(track)] *)
Definition MCLongSource_init (track : value) : object :=
  let self := MCSource_init "MCLongSource" track in
  snd ((setattr "type" (VStr "long") ;;
        setattr "_data" VNone ;;
        setattr "_has_yt_data" (VBool false)) self).

Definition MCLongSource_set_connect_data (data track : value) : method unit :=
  stream_url <- eval (blob_url py_str track) ;;
  setattr "stream_url" stream_url ;;
  release_date <- eval (d <- subscript data "releaseDate" ;; strptime d)%res ;;
  setattr "release_date" release_date ;;
  title <- eval (subscript track "title") ;;
  setattr "title" title ;;
  duration <- eval (subscript track "duration") ;;
  setattr "duration" duration ;;
  thumb <- eval (c <- subscript data "coverUrl" ;;
                 add_str c "?image_width=256")%res ;;
  setattr "thumb" thumb ;;
  duration <- eval (d <- subscript track "duration" ;; round_value d)%res ;;
  setattr "duration" (VInt duration) ;;
  catalog_id <- eval (subscript data "catalogId") ;;
  setattr "catalog_id" catalog_id ;;
  setattr "_has_connect_data" (VBool true).

(** The body of the loop of [set_yt_data], for one [(stamp, name)] and the
    local [time]. *)
Definition add_track (entry : Z * string) (time : Z) : method Z :=
  let '(stamp, name) := entry in
  let old_time := time in
  let time := time + stamp in
  tracks <- getattr "tracks" ;;
  tracks <- eval (setitem tracks (KInt (stamp - old_time))
                    (VTuple [VStr name; VInt stamp; VInt (stamp - old_time)])) ;;
  setattr "tracks" tracks ;;
  ret time.

Definition set_yt_data (data : value) : method unit :=
  tracks <- eval (d <- subscript data "description" ;;
                  text <- as_text d ;;
                  Ok (Re.findall2 TRACKLIST_REGEX text))%res ;;
  tracks <- eval (comprehension
                    (fun xy => let '(x, y) := xy in
                               (stamp <- parse_duration x ;; Ok (stamp, y))%res)
                    tracks) ;;
  let time := 0 in
  url <- eval (subscript data "webpage_url") ;;
  setattr "url" url ;;
  setattr "tracks" (VDict []) ;;
  entries <- eval (list_values tracks) ;;
  for_each entries add_track time ;;
  setattr "_has_yt_data" (VBool true).

End Sources.

(** ** Reference definitions for the properties *)

(** The format of a duration as the specification words it: the whole
    string is [MM:SS] or [HH:MM:SS], each field two decimal digits. *)
Definition spec_duration_format (s : string) : bool :=
  match list_ascii_of_string s with
  | [a; b; c1; c; d] =>
      is_digit a && is_digit b && Ascii.eqb ":" c1 && is_digit c && is_digit d
  | [h1; h2; c0; a; b; c1; c; d] =>
      is_digit h1 && is_digit h2 && Ascii.eqb ":" c0 && is_digit a && is_digit b
      && Ascii.eqb ":" c1 && is_digit c && is_digit d
  | _ => false
  end.

(** The string without its last character when that is a newline. *)
Fixpoint without_final_newline (s : string) : string :=
  match s with
  | EmptyString => EmptyString
  | String c EmptyString => if Ascii.eqb c newline then EmptyString else s
  | String c s' => String c (without_final_newline s')
  end.

(** [format_02 n] is the two decimal digits of [n]. *)
Definition two_digits_of (n : Z) : bool :=
  match format_02 n with
  | String a (String b EmptyString) =>
      is_digit a && is_digit b && (10 * digit_value a + digit_value b =? n)
  | _ => false
  end.

(** The example description of the segmenter: three lines. *)
Definition example_description : string :=
  "00:00 Intro" ++ String newline "03:15 Track A" ++ String newline "07:40 Track B".

(** The exception of unpacking a class name into [x, y]. *)
Definition too_many_values : exn :=
  ValueError "too many values to unpack (expected 2)".

(** An entry of a classifier table applied by hand: [table[name].match(s)]. *)
Definition pattern_of (table : value) (name : string) (s : string) : result bool :=
  p <- subscript table name ;; call_match p s.

Definition example_yt_data : value :=
  dict [("description", VStr example_description);
        ("webpage_url", VStr "https://www.youtube.com/watch?v=x")].

(** The URL [get_artist] requests first. *)
Definition artist_url (lower quote : string -> string) (search : string) : string :=
  BASE_URI ++ "/catalog/artist/"
  ++ quote (str_replace " " "-" (str_replace " & " "-" (lower search))).

(** [MCSingleSource("MC025", {"type": "Album"}, [])]: a single source over
    an album, made without its tracks. *)
Definition album_source : object :=
  {| class_name := "MCSingleSource";
     attrs := [("track", VStr "MC025"); ("_has_connect_data", VBool false);
               ("type", VStr "single");
               ("_data", dict [("type", VStr "Album")])] |}.

(** A long source after [load]: a decoder is bound to [source]. *)
Definition loaded_source : object :=
  {| class_name := "MCLongSource";
     attrs := [("track", VStr "mix"); ("_has_connect_data", VBool true);
               ("stream_url", VStr "https://s3.amazonaws.com/data.monstercat.com/blobs/0");
               ("source", VStr "ffmpeg")] |}.


(** ** The other lookups of [ConnectGetter] *)

(** The [AttributeError] of a method or attribute a class does not have. *)
Definition missing (cls name : string) : exn :=
  AttributeError ("'" ++ cls ++ "' object has no attribute '" ++ name ++ "'").

(** [release_from_id(id)] *)
Definition release_from_id (id : value) : io (result value) :=
  match id with
  | VStr id =>
      if String.eqb id "" then throw (ValueError "No id given.")
      else fetch (BASE_URI ++ "/catalog/release/" ++ id)
  | _ => throw (TypeError "id is not str.")
  end.

Section TrackLookups.

Variables lower quote : string -> string.

(** [aiohttp.ClientSession()], the session a getter makes for itself. *)
Variable ClientSession : value.





End TrackLookups.

(** ** [MCLongSource.get_info] *)

Section LongSource.

Variable py_str : value -> string.
Variable strptime : value -> result value.

(** [tracks[0]['title']] *)
Definition first_title (tracks : value) : result value :=
  (t <- item tracks 0 ;; subscript t "title")%res.

(** [[x for x in tracks if x['title'] == tracks[0]['title'].replace(' (Music Only)', '')]] *)
Definition with_audio (tracks : value) : result (list value) :=
  (xs <- iterate tracks ;;
   comprehension_if
     (fun x => title <- subscript x "title" ;;
               first <- first_title tracks ;;
               plain <- call_replace first " (Music Only)" "" ;;
               Ok (if equals_str title plain then Some x else None))
     xs)%res.

(** [track[key][0]['albumId']] *)
Definition album_id (track : value) (key : string) : result value :=
  (albums <- subscript track key ;;
   album <- item albums 0 ;;
   subscript album "albumId")%res.

Local Open Scope task_scope.

(** The getter of [get_info] is asked for [get_moonstercat_track], a method
    [ConnectGetter] does not have: the attribute lookup raises before the
    arguments are evaluated. *)
Definition MCLongSource_get_info : task unit :=
  has_connect_data <- sync (getattr "_has_connect_data") ;;
  (if negb (truthy has_connect_data) then
     tracks <- awaiting (throw (missing "ConnectGetter" "get_moonstercat_track")) ;;
     title <- sync (eval (first_title tracks)) ;;
     podcast <- sync (eval (contains "Podcast" title)) ;;
     podcast <- (if podcast : bool then sync (ret true)
                 else title <- sync (eval (first_title tracks)) ;;
                      sync (eval (contains "Call of the Wild" title))) ;;
     if podcast : bool then
       sync (setattr "type" (VStr "podcast")) ;;
       title <- sync (eval (first_title tracks)) ;;
       music_only <- sync (eval (contains "Music Only" title)) ;;
       track <- (if music_only : bool then
                   no_audio <- sync (eval (with_audio tracks)) ;;
                   match no_audio with
                   | _ :: _ => sync (eval (index no_audio 0))
                   | [] => sync (eval (item tracks 9))
                   end
                 else sync (eval (item tracks 0))) ;;
       id <- sync (eval (album_id track "albums")) ;;
       data <- awaiting (release_from_id id) ;;
       sync (MCLongSource_set_connect_data py_str strptime data track)
     else
       sync (setattr "type" (VStr "album-mix")) ;;
       track <- sync (eval (item tracks 0)) ;;
       id <- sync (eval (album_id track "album")) ;;
       data <- awaiting (release_from_id id) ;;
       sync (MCLongSource_set_connect_data py_str strptime data track)
   else sync (ret tt)) ;;
  has_yt_data <- sync (getattr "_has_yt_data") ;;
  if negb (truthy has_yt_data) then
    artists <- sync (getattr "artists") ;;
    title <- sync (getattr "title") ;;
    data <- (fun self =>
               ExtractInfo (py_str artists ++ " - " ++ py_str title)
                           (fun r => Return (r, self))) ;;
    wrapped <- sync (eval (contains "entries" data)) ;;
    data <- sync (eval (if wrapped : bool
                        then (es <- subscript data "entries" ;; item es 0)%res
                        else Ok data)) ;;
    sync (set_yt_data data)
  else sync (ret tt).

End LongSource.

(** ** Further reference definitions *)

(** The value of a two-digit field. *)
Definition field (a b : ascii) : Z := 10 * digit_value a + digit_value b.

(** A duration as [gen_duration] writes it: minutes and seconds below 60,
    and hours, when present, not zero. *)
Definition canonical_duration (s : string) : bool :=
  match list_ascii_of_string s with
  | [a; b; _; c; d] => (field a b <? 60) && (field c d <? 60)
  | [h1; h2; _; a; b; _; c; d] =>
      (0 <? field h1 h2) && (field a b <? 60) && (field c d <? 60)
  | _ => false
  end.

(** [format_02 n] is three decimal digits. *)
Definition three_digits_of (n : Z) : bool :=
  match format_02 n with
  | String a (String b (String c EmptyString)) =>
      is_digit a && is_digit b && is_digit c
  | _ => false
  end.

(** The pattern closes no group numbered [i]. *)
Fixpoint no_group (i : nat) (r : Re.regex) : bool :=
  match r with
  | Re.Seq r1 r2 | Re.Alt r1 r2 => no_group i r1 && no_group i r2
  | Re.Star _ r1 | Re.Lookahead r1 => no_group i r1
  | Re.Group j r1 => negb (Nat.eqb i j) && no_group i r1
  | _ => true
  end.

(** The timestamp of [TRACKLIST_REGEX], inside group 1, and what follows
    the group. *)
Definition tracklist_stamp : Re.regex :=
  Re.Seq Re.Bol
    (Re.Seq (Re.Opt (Re.Seq (Re.Times 2 digit) (Re.Lit ":")))
       (Re.Seq (Re.Times 2 digit) (Re.Seq (Re.Lit ":") (Re.Times 2 digit)))).

Definition tracklist_label : Re.regex :=
  match Re.body TRACKLIST_REGEX with
  | Re.Seq _ r => r
  | _ => Re.Empty
  end.

(** The source [set_yt_data] leaves behind when it gets to its loop. *)
Definition after_yt_assignments (url : value) (self : object) : object :=
  {| class_name := class_name self;
     attrs := assoc_set "tracks" (VDict []) (assoc_set "url" url (attrs self)) |}.

(** The URLs of the lookups. *)
Definition release_url (id : string) : string :=
  BASE_URI ++ "/catalog/release/" ++ id.

Definition artist_releases_url (py_str : value -> string) (vanity : value) : string :=
  BASE_URI ++ "/catalog/artist/" ++ py_str vanity ++ "/releases".

Definition artist_search_url (quote : string -> string) (search : string)
  (limit : Z) : string :=
  BASE_URI ++ "/catalog/artist" ++ gen_search (quote search) ["name"; "vanityUri"]
  ++ "&limit=" ++ str_of_int limit.

(** What the block around a request makes of the answer: the decoded body
    of a 2xx response, [ValueError] with the code otherwise. *)
Definition outcome_of (answer : result response) : result value :=
  match answer with
  | Raise e => Raise e
  | Ok r =>
      if (200 <=? status r) && (status r <? 300) then json r
      else Raise (invalid_response_code (status r))
  end.

(** The answer is a 2xx response that decodes to [body]. *)
Definition answers (answer : result response) (body : value) : Prop :=
  exists r, answer = Ok r
            /\ (200 <=? status r) && (status r <? 300) = true
            /\ json r = Ok body.

(** ** Example data for the properties *)

(** [str()] of a string; the other values do not occur in the examples. *)
Definition text (v : value) : string :=
  match v with
  | VStr s => s
  | _ => EmptyString
  end.

Definition same (s : string) : string := s.

Definition example_artist : value :=
  dict [("name", VStr "Artist"); ("vanityUri", VStr "artist")].

Definition not_found : value :=
  dict [("error", VBool true); ("message", VStr "Artist not found.")].

Definition internal_error : value :=
  dict [("error", VBool true); ("message", VStr "Internal error.")].

(** A catalog service that knows one artist. *)
Definition example_transport (log : list string) (url : string)
  : result response :=
  if String.eqb url (artist_url same same "artist")
  then Ok {| status := 200; json := Ok example_artist |}
  else if String.eqb url (artist_releases_url text (VStr "artist"))
  then Ok {| status := 200; json := Ok (dict [("results", VList [])]) |}
  else if String.eqb url (artist_url same same "ghost")
  then Ok {| status := 200; json := Ok not_found |}
  else if String.eqb url (artist_search_url same "ghost" 10)
  then Ok {| status := 200; json := Ok (dict [("results", VList [])]) |}
  else if String.eqb url (artist_url same same "broken")
  then Ok {| status := 200; json := Ok internal_error |}
  else Ok {| status := 404; json := Raise (ValueError "no body") |}.

Definition no_lookup (query : string) : result value :=
  Raise (ValueError "no lookup service").

Definition example_track : value :=
  dict [("title", VStr "Song");
        ("albums", VList [dict [("streamHash", VStr "abc"); ("albumId", VStr "1")]]);
        ("bpm", VInt 128); ("duration", VInt 200); ("genre", VStr "House")].

Definition example_release : value :=
  dict [("type", VStr "Single"); ("releaseDate", VStr "2017-01-01T00:00:00.000Z");
        ("title", VStr "Song"); ("renderedArtists", VStr "Artist");
        ("coverUrl", VStr "https://assets.monstercat.com/cover 1.png");
        ("catalogId", VStr "MCS001");
        ("urls", VList [VStr "https://open.spotify.com/track/1";
                        VStr "https://www.youtube.com/watch?v=x"])].

(** The attributes [MCSingleSource.set_connect_data] assigns before the
    flag. *)
Definition connect_attributes : list string :=
  ["stream_url"; "release_date"; "title"; "artists"; "thumb"; "bpm";
   "duration"; "genre"].

(** [self._data and [x for x in self._data['urls'] if ...]], the test of
    [MCSingleSource.get_info] for a link of the release. *)
Definition release_links (data : value) : result (list value) :=
  if truthy data
  then (urls <- subscript data "urls" ;; youtube_links urls)%res
  else Ok [].

(** The source with one attribute assigned, and with one deleted. *)
Definition with_attr (name : string) (v : value) (self : object) : object :=
  {| class_name := class_name self; attrs := assoc_set name v (attrs self) |}.

Definition without_attr (name : string) (self : object) : object :=
  {| class_name := class_name self; attrs := assoc_del name (attrs self) |}.

(** A single source with its catalog data, as [set_connect_data] leaves
    it, and the same source as the constructor returns it. *)
Definition resolved_source : object :=
  snd (MCSingleSource_set_connect_data text Ok example_release
         (VList [example_track]) (MCSource_init "MCSingleSource" (VStr "song"))).

Definition constructed_source : result object :=
  MCSingleSource_init text Ok (VStr "song") example_release (VList [example_track]).

(** A release without a link to the video platform, and what the lookup
    service finds for it. *)
Definition unlinked_release : value :=
  dict [("type", VStr "Single"); ("releaseDate", VStr "2017-01-01T00:00:00.000Z");
        ("title", VStr "Song"); ("renderedArtists", VStr "Artist");
        ("coverUrl", VStr "https://assets.monstercat.com/cover.png");
        ("urls", VList [VStr "https://open.spotify.com/track/1"])].

Definition example_video : value :=
  dict [("webpage_url", VStr "https://www.youtube.com/watch?v=y");
        ("description", VStr example_description)].

Definition example_lookup (query : string) : result value :=
  if String.eqb query "Artist - Song" then Ok example_video
  else Raise (ValueError "no result").

Definition unlinked_source : result object :=
  MCSingleSource_init text Ok (VStr "song") unlinked_release (VList [example_track]).

(** A long source with its catalog data. *)
Definition resolved_long_source : object :=
  snd (MCLongSource_set_connect_data text Ok example_release example_track
         (MCLongSource_init (VStr "mix"))).

(** The source inside a constructor result ([self] of a failed construction
    does not exist; the examples below all construct). *)
Definition constructed (r : result object) : object :=
  match r with
  | Ok self => self
  | Raise _ => {| class_name := EmptyString; attrs := [] |}
  end.

(** ** Reference definitions for rounding and for the decoder *)

(** [n] is the integer nearest to the finite float [x], the even one when
    two are equally near.  For [x = v * 2^e] with a negative exponent the
    distance is compared after scaling by [2^(-e)]: [|n - x| <= 1/2] reads
    [2 * |n * 2^(-e) - v| <= 2^(-e)]. *)
Definition rounds_to (x : spec_float) (n : Z) : Prop :=
  match x with
  | S754_zero _ => n = 0
  | S754_finite s m e =>
      let v := if s then - Zpos m else Zpos m in
      if 0 <=? e then n = v * 2 ^ e
      else 2 * Z.abs (n * 2 ^ (- e) - v) <= 2 ^ (- e)
           /\ (2 * Z.abs (n * 2 ^ (- e) - v) = 2 ^ (- e) -> Z.even n = true)
  | S754_infinity _ | S754_nan => False
  end.


(** * Properties *)

(** ** Characters *)

Ltac by_bits c := destruct c as [[] [] [] [] [] [] [] []]; try discriminate; reflexivity.

Lemma digit_not_colon (c : ascii) : is_digit c = true -> Ascii.eqb c ":" = false.
Proof. by_bits c. Qed.

Lemma digit_not_space (c : ascii) : is_digit c = true -> is_int_space c = false.
Proof. by_bits c. Qed.

Lemma digit_not_minus (c : ascii) : is_digit c = true -> Ascii.eqb c "-" = false.
Proof. by_bits c. Qed.

Lemma digit_not_plus (c : ascii) : is_digit c = true -> Ascii.eqb c "+" = false.
Proof. by_bits c. Qed.

Lemma digit_not_newline (c : ascii) : is_digit c = true -> Ascii.eqb c newline = false.
Proof. by_bits c. Qed.

(** ** Duration codec *)

Lemma py_int_two_digits (a b : ascii) :
  is_digit a = true -> is_digit b = true ->
  py_int (String a (String b EmptyString)) = Ok (10 * digit_value a + digit_value b).
Proof.
  intros Ha Hb. unfold py_int, str_strip, str_rev. cbn [lstrip].
  rewrite (digit_not_space a Ha). cbn [str_rev_append lstrip].
  rewrite (digit_not_space b Hb). cbn [str_rev_append].
  rewrite (digit_not_minus a Ha), (digit_not_plus a Ha).
  cbn [int_digits]. rewrite Ha, Hb. reflexivity.
Qed.

(** What the optional group, the digits and the colons of [DURATION_REGEX]
    accept: [MM:SS] and [HH:MM:SS]. *)
Lemma duration_regex_mmss (a b c d : ascii) :
  is_digit a = true -> is_digit b = true ->
  is_digit c = true -> is_digit d = true ->
  Re.found (Re.match_ DURATION_REGEX
              (String a (String b (String ":" (String c (String d EmptyString))))))
  = true.
Proof.
  intros Ha Hb Hc Hd. unfold Re.match_, DURATION_REGEX, digit. cbn.
  unfold Re.one. cbn. rewrite Ha. cbn. rewrite Hb. cbn. rewrite Hc. cbn. rewrite Hd. cbn.
  reflexivity.
Qed.

Lemma duration_regex_hhmmss (h1 h2 a b c d : ascii) :
  is_digit h1 = true -> is_digit h2 = true ->
  is_digit a = true -> is_digit b = true ->
  is_digit c = true -> is_digit d = true ->
  Re.found (Re.match_ DURATION_REGEX
              (String h1 (String h2 (String ":"
                 (String a (String b (String ":" (String c (String d EmptyString)))))))))
  = true.
Proof.
  intros H1 H2 Ha Hb Hc Hd. unfold Re.match_, DURATION_REGEX, digit. cbn.
  unfold Re.one. cbn. rewrite H1. cbn. rewrite H2. cbn. rewrite Ha. cbn.
  rewrite Hb. cbn. rewrite Hc. cbn. rewrite Hd. cbn. reflexivity.
Qed.

Lemma found_true (m : option Re.cursor) :
  Re.found m = true -> exists x, m = Some x.
Proof. destruct m; [eauto | discriminate]. Qed.

Lemma parse_duration_mmss (a b c d : ascii) :
  is_digit a = true -> is_digit b = true ->
  is_digit c = true -> is_digit d = true ->
  parse_duration (String a (String b (String ":" (String c (String d EmptyString)))))
  = Ok ((10 * digit_value a + digit_value b) * 60
        + (10 * digit_value c + digit_value d)).
Proof.
  intros Ha Hb Hc Hd. unfold parse_duration.
  destruct (found_true _ (duration_regex_mmss a b c d Ha Hb Hc Hd)) as [m ->].
  unfold str_split. cbn [str_split_aux].
  rewrite (digit_not_colon a Ha), (digit_not_colon b Hb), (digit_not_colon c Hc),
    (digit_not_colon d Hd).
  cbn [Ascii.eqb Bool.eqb andb str_split_aux str_rev str_rev_append List.length
       Nat.eqb index nth_error bind].
  rewrite (py_int_two_digits a b Ha Hb). cbn [bind].
  rewrite (py_int_two_digits c d Hc Hd). cbn [bind].
  f_equal.
Qed.

Lemma parse_duration_hhmmss (h1 h2 a b c d : ascii) :
  is_digit h1 = true -> is_digit h2 = true ->
  is_digit a = true -> is_digit b = true ->
  is_digit c = true -> is_digit d = true ->
  parse_duration
    (String h1 (String h2 (String ":"
       (String a (String b (String ":" (String c (String d EmptyString))))))))
  = Ok ((10 * digit_value h1 + digit_value h2) * 60 * 60
        + (10 * digit_value a + digit_value b) * 60
        + (10 * digit_value c + digit_value d)).
Proof.
  intros H1 H2 Ha Hb Hc Hd. unfold parse_duration.
  destruct (found_true _ (duration_regex_hhmmss h1 h2 a b c d H1 H2 Ha Hb Hc Hd))
    as [m ->].
  unfold str_split. cbn [str_split_aux].
  rewrite (digit_not_colon h1 H1), (digit_not_colon h2 H2), (digit_not_colon a Ha),
    (digit_not_colon b Hb), (digit_not_colon c Hc), (digit_not_colon d Hd).
  cbn [Ascii.eqb Bool.eqb andb str_split_aux str_rev str_rev_append List.length
       Nat.eqb index nth_error bind].
  rewrite (py_int_two_digits h1 h2 H1 H2). cbn [bind].
  rewrite (py_int_two_digits a b Ha Hb). cbn [bind].
  rewrite (py_int_two_digits c d Hc Hd). cbn [bind].
  f_equal.
Qed.

(** Below one hundred, [:02] prints exactly the two decimal digits. *)
Lemma format_02_below_100 (n : Z) :
  0 <= n < 100 ->
  exists a b, format_02 n = String a (String b EmptyString)
              /\ is_digit a = true /\ is_digit b = true
              /\ 10 * digit_value a + digit_value b = n.
Proof.
  intros Hn.
  assert (Hall : forallb two_digits_of (map Z.of_nat (seq 0 100)) = true)
    by (vm_compute; reflexivity).
  rewrite forallb_forall in Hall.
  assert (Hin : In n (map Z.of_nat (seq 0 100))).
  { apply in_map_iff. exists (Z.to_nat n). split; [lia |].
    apply in_seq. lia. }
  specialize (Hall n Hin). unfold two_digits_of in Hall.
  destruct (format_02 n) as [| a [| b [| ? ?]]]; try discriminate.
  apply andb_prop in Hall as [Hab Hv]. apply andb_prop in Hab as [Ha Hb].
  exists a, b. repeat split; auto. now apply Z.eqb_eq.
Qed.

(** C2: for every integer [0 <= s < 360000], decoding the encoding of [s]
    gives back [s]: [parse_duration(gen_duration(s)) == s]. *)
Theorem parse_gen_duration_roundtrip (s : Z) :
  0 <= s < 360000 ->
  (t <- gen_duration (IntSeconds s) ;; parse_duration t) = Ok s.
Proof.
  intros Hs. unfold gen_duration. cbn [bind].
  pose proof (Z.div_mod s 60 ltac:(lia)) as Hsec.
  pose proof (Z.mod_pos_bound s 60 ltac:(lia)) as Bsec.
  pose proof (Z.div_mod (s / 60) 60 ltac:(lia)) as Hmin.
  pose proof (Z.mod_pos_bound (s / 60) 60 ltac:(lia)) as Bmin.
  assert (Bh : 0 <= s / 60 / 60 < 100).
  { split.
    - apply Z.div_pos; [apply Z.div_pos |]; lia.
    - apply Z.div_lt_upper_bound; [lia |].
      apply Z.div_lt_upper_bound; lia. }
  destruct (format_02_below_100 (s mod 60) ltac:(lia))
    as (c & d & -> & Hc & Hd & Vs).
  destruct (format_02_below_100 ((s / 60) mod 60) ltac:(lia))
    as (a & b & -> & Ha & Hb & Vm).
  destruct (format_02_below_100 _ Bh) as (h1 & h2 & -> & H1 & H2 & Vh).
  destruct (s / 60 / 60 =? 0) eqn:Hz; cbn [negb append].
  - rewrite (parse_duration_mmss a b c d Ha Hb Hc Hd).
    apply Z.eqb_eq in Hz. f_equal. lia.
  - rewrite (parse_duration_hhmmss h1 h2 a b c d H1 H2 Ha Hb Hc Hd).
    f_equal. lia.
Qed.

Lemma parse_gen_duration_roundtrip_witness :
  0 <= 3723 < 360000
  /\ (t <- gen_duration (IntSeconds 3723) ;; parse_duration t) = Ok 3723.
Proof.
  split; [lia | apply (parse_gen_duration_roundtrip 3723); lia].
Defined.

(** The float test comes first: what is formatted is [round] of the float,
    and an exception of [round] is the outcome. *)
Lemma gen_duration_of_float (x : spec_float) :
  gen_duration (FloatSeconds x) = (n <- py_round x ;; gen_duration (IntSeconds n)).
Proof.
  unfold gen_duration. destruct (py_round x); reflexivity.
Qed.

(** An integer below one hundred hours is written as a string that decodes
    to it. *)
Lemma gen_duration_decodes (s : Z) :
  0 <= s < 360000 ->
  exists t, gen_duration (IntSeconds s) = Ok t /\ parse_duration t = Ok s.
Proof.
  intros Hs. unfold gen_duration. cbn [bind].
  pose proof (Z.div_mod s 60 ltac:(lia)) as Hsec.
  pose proof (Z.mod_pos_bound s 60 ltac:(lia)) as Bsec.
  pose proof (Z.div_mod (s / 60) 60 ltac:(lia)) as Hmin.
  pose proof (Z.mod_pos_bound (s / 60) 60 ltac:(lia)) as Bmin.
  assert (Bh : 0 <= s / 60 / 60 < 100).
  { split.
    - apply Z.div_pos; [apply Z.div_pos |]; lia.
    - apply Z.div_lt_upper_bound; [lia |].
      apply Z.div_lt_upper_bound; lia. }
  destruct (format_02_below_100 (s mod 60) ltac:(lia))
    as (c & d & -> & Hc & Hd & Vs).
  destruct (format_02_below_100 ((s / 60) mod 60) ltac:(lia))
    as (a & b & -> & Ha & Hb & Vm).
  destruct (format_02_below_100 _ Bh) as (h1 & h2 & -> & H1 & H2 & Vh).
  eexists. split; [reflexivity |].
  destruct (s / 60 / 60 =? 0) eqn:Hz; cbn [negb append].
  - rewrite (parse_duration_mmss a b c d Ha Hb Hc Hd).
    apply Z.eqb_eq in Hz. f_equal. lia.
  - rewrite (parse_duration_hhmmss h1 h2 a b c d H1 H2 Ha Hb Hc Hd).
    f_equal. lia.
Qed.

(** With an exponent that is not negative the float is an integer. *)
Lemma round_half_even_exact (m e : Z) :
  0 <= e -> round_half_even m e = m * 2 ^ e.
Proof.
  intros He. unfold round_half_even.
  destruct (0 <=? e) eqn:E; [reflexivity | apply Z.leb_gt in E; lia].
Qed.

(** [round_half_even] gives the nearest integer, and the even one at a tie:
    for [m * 2^e] with a negative exponent, twice the distance to the result
    is at most one, and exactly one only for an even result. *)
Lemma round_half_even_spec (m e : Z) :
  0 <= m -> e < 0 ->
  2 * Z.abs (round_half_even m e * 2 ^ (- e) - m) <= 2 ^ (- e)
  /\ (2 * Z.abs (round_half_even m e * 2 ^ (- e) - m) = 2 ^ (- e) ->
      Z.even (round_half_even m e) = true).
Proof.
  intros Hm He. unfold round_half_even.
  destruct (0 <=? e) eqn:E; [apply Z.leb_le in E; lia |].
  assert (Hd : 0 < 2 ^ (- e)) by (apply Z.pow_pos_nonneg; lia).
  set (d := 2 ^ (- e)) in *.
  pose proof (Z.div_mod m d ltac:(lia)) as Hdm.
  pose proof (Z.mod_pos_bound m d Hd) as Hr.
  set (q := m / d) in *. set (r := m mod d) in *. cbv zeta.
  destruct (2 * r <? d) eqn:L1.
  { apply Z.ltb_lt in L1. split; [nia | intros T; exfalso; nia]. }
  apply Z.ltb_ge in L1.
  destruct (d <? 2 * r) eqn:L2.
  { apply Z.ltb_lt in L2. split; [nia | intros T; exfalso; nia]. }
  apply Z.ltb_ge in L2.
  destruct (Z.even q) eqn:Ev.
  - split; [nia | intros _; exact Ev].
  - split; [nia |]. intros _.
    rewrite Z.even_add, Ev. reflexivity.
Qed.

(** C10, as the code has it: [gen_duration] takes a finite float, rounds it
    to the nearest integer, the even one at a tie, and formats that
    integer: [gen_duration(f) == gen_duration(round(f))], and below one
    hundred hours the string decodes to [round(f)].  For NaN it raises
    [ValueError] and for an infinity [OverflowError], as [round] does. *)
Theorem gen_duration_float_rounds (x : spec_float) :
  match x with
  | S754_nan =>
      gen_duration (FloatSeconds x)
      = Raise (ValueError "cannot convert float NaN to integer")
  | S754_infinity _ =>
      gen_duration (FloatSeconds x)
      = Raise (OverflowError "cannot convert float infinity to integer")
  | _ =>
      exists n,
        rounds_to x n
        /\ gen_duration (FloatSeconds x) = gen_duration (IntSeconds n)
        /\ (0 <= n < 360000 ->
            exists t, gen_duration (FloatSeconds x) = Ok t
                      /\ parse_duration t = Ok n)
  end.
Proof.
  destruct x as [s | s | | s m e]; try reflexivity.
  - exists 0. split; [reflexivity | split; [reflexivity |]].
    intros H0. rewrite gen_duration_of_float. cbn [py_round bind].
    exact (gen_duration_decodes 0 H0).
  - set (r := round_half_even (Zpos m) e).
    exists (if s then - r else r).
    split; [| split].
    + unfold rounds_to. cbv zeta.
      destruct (0 <=? e) eqn:E.
      * apply Z.leb_le in E. unfold r.
        rewrite (round_half_even_exact (Zpos m) e E). destruct s; ring.
      * apply Z.leb_gt in E.
        destruct (round_half_even_spec (Zpos m) e ltac:(lia) E) as [Hn Ht].
        fold r in Hn, Ht. destruct s.
        -- replace (- r * 2 ^ (- e) - - Zpos m)
             with (- (r * 2 ^ (- e) - Zpos m)) by ring.
           rewrite Z.abs_opp, Z.even_opp. split; assumption.
        -- split; assumption.
    + rewrite gen_duration_of_float. reflexivity.
    + intros Hn. rewrite gen_duration_of_float. cbn [py_round bind]. fold r.
      exact (gen_duration_decodes _ Hn).
Qed.

(** C10, as stated, fails: not every float is taken.  For NaN and for an
    infinity [gen_duration] returns no string, it raises the exception of
    [round]. *)
Lemma gen_duration_nan_raises :
  gen_duration (FloatSeconds S754_nan)
  = Raise (ValueError "cannot convert float NaN to integer")
  /\ gen_duration (FloatSeconds (S754_infinity false))
     = Raise (OverflowError "cannot convert float infinity to integer").
Proof. split; reflexivity. Qed.

(** At 3.5 seconds. *)
Lemma gen_duration_float_rounds_witness :
  exists n,
    rounds_to (S754_finite false 7 (-1)) n
    /\ gen_duration (FloatSeconds (S754_finite false 7 (-1)))
       = gen_duration (IntSeconds n)
    /\ (0 <= n < 360000 ->
        exists t, gen_duration (FloatSeconds (S754_finite false 7 (-1))) = Ok t
                  /\ parse_duration t = Ok n).
Proof. exact (gen_duration_float_rounds (S754_finite false 7 (-1))). Defined.

(** 3.5 seconds: the two neighbours are equally near, and the even one, 4,
    is formatted. *)
Example gen_duration_half :
  gen_duration (FloatSeconds (S754_finite false 7 (-1))) = Ok "00:04"
  /\ gen_duration (FloatSeconds (S754_finite false 7201 (-1))) = Ok "01:00:00".
Proof. split; reflexivity. Qed.

(** Ties go to the even neighbour: 0.5 and 2.5 round down, 1.5 rounds up. *)
Example round_ties :
  py_round (S754_finite false 1 (-1)) = Ok 0
  /\ py_round (S754_finite false 3 (-1)) = Ok 2
  /\ py_round (S754_finite false 5 (-1)) = Ok 2
  /\ py_round (S754_finite true 7 (-1)) = Ok (-4).
Proof. repeat split. Qed.

(** *** The guard of [parse_duration] *)

Section DurationGuard.

#[local] Arguments Ascii.eqb : simpl never.
#[local] Arguments is_digit : simpl never.

Ltac crunch M :=
  repeat first
    [ discriminate M
    | match type of M with
      | context [if is_digit ?c then _ else _] =>
          destruct (is_digit c) eqn:?; cbn in M
      | context [if Ascii.eqb ?a ?b then _ else _] =>
          destruct (Ascii.eqb a b) eqn:?; cbn in M
      | context [Ascii.eqb ?a ?b] =>
          destruct (Ascii.eqb a b) eqn:?; cbn in M
      end ].

Ltac tests_pass :=
  unfold spec_duration_format; cbn;
  repeat match goal with H : _ = true |- _ => rewrite H; clear H end;
  reflexivity.

Ltac final_newline :=
  match goal with
  | H : Ascii.eqb ?c newline = true |- _ => apply Ascii.eqb_eq in H; subst c
  end.

(** A string [DURATION_REGEX] matches has the format of the specification,
    or has it once a final newline is taken off: [$] also matches just
    before a newline that ends the string. *)
Lemma duration_regex_shape (s : string) (m : Re.cursor) :
  Re.match_ DURATION_REGEX s = Some m ->
  spec_duration_format s = true
  \/ exists t, s = t ++ String newline "" /\ spec_duration_format t = true.
Proof.
  intros M. unfold Re.match_, DURATION_REGEX, digit in M.
  destruct s as [|c1 [|c2 [|c3 [|c4 [|c5 [|c6 [|c7 [|c8 [|c9 [|c10 r]]]]]]]]]];
    cbn in M; unfold Re.one in M; cbn in M; crunch M.
  - left. tests_pass.
  - right. final_newline.
    exists (String c1 (String c2 (String c3 (String c4 (String c5 ""))))).
    split; [reflexivity | tests_pass].
  - right. final_newline.
    exists (String c1 (String c2 (String c3 (String c4 (String c5 ""))))).
    split; [reflexivity | tests_pass].
  - left. tests_pass.
  - right. final_newline.
    exists (String c1 (String c2 (String c3 (String c4 (String c5
             (String c6 (String c7 (String c8 "")))))))).
    split; [reflexivity | tests_pass].
Qed.

End DurationGuard.

Lemma without_final_newline_app (t : string) :
  without_final_newline (t ++ String newline "") = t.
Proof.
  induction t as [| c t IH]; [reflexivity |].
  cbn [append without_final_newline]. rewrite IH.
  destruct t; reflexivity.
Qed.

Lemma spec_format_no_final_newline (s : string) :
  spec_duration_format s = true -> without_final_newline s = s.
Proof.
  unfold spec_duration_format.
  destruct s as [|c1 [|c2 [|c3 [|c4 [|c5 [|c6 [|c7 [|c8 [|c9 r]]]]]]]]];
    cbn; try discriminate; intros H.
  - rewrite !andb_true_iff in H. destruct H as [_ H].
    rewrite (digit_not_newline c5 H). reflexivity.
  - rewrite !andb_true_iff in H. destruct H as [_ H].
    rewrite (digit_not_newline c8 H). reflexivity.
Qed.

(** [int()] skips the newline after the digits. *)
Lemma py_int_two_digits_newline (a b : ascii) :
  is_digit a = true -> is_digit b = true ->
  py_int (String a (String b (String newline EmptyString)))
  = Ok (10 * digit_value a + digit_value b).
Proof.
  intros Ha Hb. rewrite <- (py_int_two_digits a b Ha Hb).
  unfold py_int, str_strip, str_rev. cbn [lstrip].
  rewrite (digit_not_space a Ha). cbn [str_rev_append lstrip].
  change (is_int_space newline) with true. cbn [lstrip].
  rewrite (digit_not_space b Hb). reflexivity.
Qed.

(** The strings of the specified format, spelled out. *)
Lemma spec_format_inv (t : string) :
  spec_duration_format t = true ->
  (exists a b c d,
      t = String a (String b (String ":" (String c (String d EmptyString))))
      /\ is_digit a = true /\ is_digit b = true
      /\ is_digit c = true /\ is_digit d = true)
  \/ (exists h1 h2 a b c d,
      t = String h1 (String h2 (String ":" (String a (String b (String ":"
            (String c (String d EmptyString)))))))
      /\ is_digit h1 = true /\ is_digit h2 = true
      /\ is_digit a = true /\ is_digit b = true
      /\ is_digit c = true /\ is_digit d = true).
Proof.
  unfold spec_duration_format.
  destruct t as [|c1 [|c2 [|c3 [|c4 [|c5 [|c6 [|c7 [|c8 [|c9 r]]]]]]]]];
    cbn [list_ascii_of_string]; try discriminate; intros H;
    rewrite !andb_true_iff in H.
  - left. destruct H as ((((H1 & H2) & H3) & H4) & H5).
    apply Ascii.eqb_eq in H3. subst c3.
    exists c1, c2, c4, c5. repeat split; assumption.
  - right. destruct H as (((((((H1 & H2) & H3) & H4) & H5) & H6) & H7) & H8).
    apply Ascii.eqb_eq in H3. apply Ascii.eqb_eq in H6. subst c3 c6.
    exists c1, c2, c4, c5, c7, c8. repeat split; assumption.
Qed.

(** A string of the format followed by one newline passes the guard and
    decodes to the same number of seconds. *)
Lemma parse_duration_final_newline (t : string) :
  spec_duration_format t = true ->
  parse_duration (t ++ String newline "") = parse_duration t.
Proof.
  intros H. destruct (spec_format_inv t H)
    as [(a & b & c & d & -> & Ha & Hb & Hc & Hd)
       | (h1 & h2 & a & b & c & d & -> & H1 & H2 & Ha & Hb & Hc & Hd)].
  - rewrite (parse_duration_mmss a b c d Ha Hb Hc Hd).
    cbn [append]. unfold parse_duration.
    assert (M : Re.found (Re.match_ DURATION_REGEX
               (String a (String b (String ":" (String c (String d
                  (String newline ""))))))) = true).
    { unfold Re.match_, DURATION_REGEX, digit. cbn. unfold Re.one. cbn.
      rewrite Ha. cbn. rewrite Hb. cbn. rewrite Hc. cbn. rewrite Hd. cbn.
      reflexivity. }
    destruct (found_true _ M) as [m ->].
    unfold str_split. cbn [str_split_aux].
    rewrite (digit_not_colon a Ha), (digit_not_colon b Hb), (digit_not_colon c Hc),
      (digit_not_colon d Hd).
    cbn [Ascii.eqb Bool.eqb andb str_split_aux str_rev str_rev_append List.length
         Nat.eqb index nth_error bind newline].
    rewrite (py_int_two_digits a b Ha Hb). cbn [bind].
    rewrite (py_int_two_digits_newline c d Hc Hd). cbn [bind].
    f_equal.
  - rewrite (parse_duration_hhmmss h1 h2 a b c d H1 H2 Ha Hb Hc Hd).
    cbn [append]. unfold parse_duration.
    assert (M : Re.found (Re.match_ DURATION_REGEX
               (String h1 (String h2 (String ":" (String a (String b (String ":"
                  (String c (String d (String newline "")))))))))) = true).
    { unfold Re.match_, DURATION_REGEX, digit. cbn. unfold Re.one. cbn.
      rewrite H1. cbn. rewrite H2. cbn. rewrite Ha. cbn. rewrite Hb. cbn.
      rewrite Hc. cbn. rewrite Hd. cbn. reflexivity. }
    destruct (found_true _ M) as [m ->].
    unfold str_split. cbn [str_split_aux].
    rewrite (digit_not_colon h1 H1), (digit_not_colon h2 H2), (digit_not_colon a Ha),
      (digit_not_colon b Hb), (digit_not_colon c Hc), (digit_not_colon d Hd).
    cbn [Ascii.eqb Bool.eqb andb str_split_aux str_rev str_rev_append List.length
         Nat.eqb index nth_error bind newline].
    rewrite (py_int_two_digits h1 h2 H1 H2). cbn [bind].
    rewrite (py_int_two_digits a b Ha Hb). cbn [bind].
    rewrite (py_int_two_digits_newline c d Hc Hd). cbn [bind].
    f_equal.
Qed.

(** C3, as the code has it: a string that has not the format
    [MM:SS] or [HH:MM:SS] as a whole, and still has not once a final newline
    is taken off, makes [parse_duration] raise its format error. *)
Theorem parse_duration_rejects (s : string) :
  spec_duration_format s = false ->
  spec_duration_format (without_final_newline s) = false ->
  parse_duration s = Raise duration_format_error.
Proof.
  intros Hs Ht. unfold parse_duration.
  destruct (Re.match_ DURATION_REGEX s) as [m |] eqn:M; [| reflexivity].
  exfalso. destruct (duration_regex_shape s m M) as [H | (t & -> & H)].
  - congruence.
  - rewrite without_final_newline_app in Ht. congruence.
Qed.

Lemma parse_duration_rejects_witness :
  spec_duration_format "1:02" = false
  /\ spec_duration_format (without_final_newline "1:02") = false
  /\ parse_duration "1:02" = Raise duration_format_error.
Proof.
  split; [reflexivity | split; [reflexivity |]].
  apply (parse_duration_rejects "1:02"); reflexivity.
Defined.

(** C3, as stated, fails: ["12:34\n"] is not a whole-string match of the
    format, and [parse_duration] returns 754 for it. *)
Lemma parse_duration_accepts_final_newline :
  spec_duration_format ("12:34" ++ String newline "") = false
  /\ parse_duration ("12:34" ++ String newline "") = Ok 754.
Proof. split; reflexivity. Qed.

(** ** Classifiers *)

(** Iterating over a classifier table yields its keys, the class names, and
    the first of them already fails to unpack into [x, y]: the comprehension
    raises whatever the string to classify. *)
Lemma names_matching_catalog (call : value -> string -> result bool) (s : string) :
  names_matching call CATALOG_REGEXES s = Raise too_many_values.
Proof. reflexivity. Qed.

Lemma names_matching_urls (call : value -> string -> result bool) (s : string) :
  names_matching call URL_REGEXES s = Raise too_many_values.
Proof. reflexivity. Qed.

Lemma is_catalog_id_raises (id : string) :
  is_catalog_id id = Raise too_many_values.
Proof. reflexivity. Qed.

(** The patterns of the table are the ones the catalog identifiers need:
    taken with its pattern, each entry classifies as the examples say. *)
Example catalog_patterns :
  pattern_of CATALOG_REGEXES "Album" "MC025" = Ok true
  /\ pattern_of CATALOG_REGEXES "Extended Play" "MCEP014" = Ok true
  /\ pattern_of CATALOG_REGEXES "Album" "MCEP014" = Ok false
  /\ pattern_of CATALOG_REGEXES "Album" "not-an-id" = Ok false
  /\ pattern_of CATALOG_REGEXES "Single" "MCS123" = Ok true
  /\ pattern_of CATALOG_REGEXES "Special Compilation" "MCS123" = Ok true.
Proof. repeat split. Qed.

(** C1: the classifier is to return Album for ["MC025"], Extended Play for
    ["MCEP014"] and [None] for ["not-an-id"], raising for no input.  The code
    raises [ValueError] for every input, these three included. *)
Theorem get_type_from_catalog_id_raises (id : string) :
  get_type_from_catalog_id id = Raise too_many_values.
Proof. reflexivity. Qed.

(** C4: [get_name] is to return ["YouTube"] for a YouTube link, the decoded
    destination of a [prf.hn] link and any other URL unchanged.  The code
    raises [ValueError] for every URL. *)
Theorem get_name_raises (unquote : string -> string) (url : string) :
  get_name unquote url = Raise too_many_values.
Proof. reflexivity. Qed.

(** The patterns behind [get_name] do tell the two example links apart. *)
Example url_patterns :
  (p <- subscript URL_REGEXES "YouTube" ;;
   call_search p "https://www.youtube.com/watch?v=x") = Ok true
  /\ Re.found (Re.search PERFORMANCE_HORIZON_REGEX
       "https://prf.hn/click/camref:abc/pubref:def/destination:https%3A%2F%2Fopen.spotify.com%2Ftrack%2F1")
     = true
  /\ option_map (fun m => Re.group 1 (Re.caps m))
       (Re.search PERFORMANCE_HORIZON_DEST_REGEX
          "https://prf.hn/click/camref:abc/pubref:def/destination:https%3A%2F%2Fopen.spotify.com%2Ftrack%2F1")
     = Some (Some "https%3A%2F%2Fopen.spotify.com%2Ftrack%2F1").
Proof. repeat split. Qed.

(** ** Tracklist segmenter *)

(** The pattern and the decoder do their part on the example: three
    timestamped labels in source order, at 0, 195 and 460 seconds. *)
Example example_tracklist :
  comprehension
    (fun xy => stamp <- parse_duration (fst xy) ;; Ok (stamp, snd xy))
    (Re.findall2 TRACKLIST_REGEX example_description)
  = Ok [(0, "Intro"); (195, "Track A"); (460, "Track B")].
Proof. reflexivity. Qed.

(** The loop itself, were it reached with the three entries: the keys are
    the stamps less the sum of the stamps before, 0, 195 and 265, each stored
    with the label of its own line. *)
Example loop_on_example :
  snd (for_each [(0, "Intro"); (195, "Track A"); (460, "Track B")] add_track 0
         {| class_name := "MCLongSource"; attrs := [("tracks", VDict [])] |})
  = {| class_name := "MCLongSource";
       attrs := [("tracks",
                  VDict [(KInt 0, VTuple [VStr "Intro"; VInt 0; VInt 0]);
                         (KInt 195, VTuple [VStr "Track A"; VInt 195; VInt 195]);
                         (KInt 265, VTuple [VStr "Track B"; VInt 460; VInt 265])])] |}.
Proof. reflexivity. Qed.

(** C5: segmenting the example description is to yield the three segments
    Intro, Track A and Track B.  [set_yt_data] raises [AttributeError] at
    [tracks.values()] and leaves the source with an empty [tracks] and
    [_has_yt_data] false. *)
Theorem set_yt_data_example :
  set_yt_data example_yt_data (MCLongSource_init (VStr "mix"))
  = (Raise (AttributeError "'list' object has no attribute 'values'"),
     {| class_name := "MCLongSource";
        attrs := [("track", VStr "mix"); ("_has_connect_data", VBool false);
                  ("type", VStr "long"); ("_data", VNone);
                  ("_has_yt_data", VBool false);
                  ("url", VStr "https://www.youtube.com/watch?v=x");
                  ("tracks", VDict [])] |}).
Proof. reflexivity. Qed.

(** C6: a description without a tracklist is to give an empty result and no
    exception.  [set_yt_data] ends in an exception for every argument and
    every source, so for these descriptions too. *)
Theorem set_yt_data_always_raises (data : value) (self : object) :
  exists e, fst (set_yt_data data self) = Raise e.
Proof.
  unfold set_yt_data, mbind, eval, list_values.
  destruct (_ <- subscript data "description" ;; _) as [tracks | e];
    [| eexists; reflexivity].
  destruct (comprehension _ tracks) as [stamps | e]; [| eexists; reflexivity].
  destruct (subscript data "webpage_url") as [url | e]; [| eexists; reflexivity].
  cbn. eexists; reflexivity.
Qed.

(** With no tracklist in the description the exception is the
    [AttributeError] of the example. *)
Example set_yt_data_no_tracklist :
  Re.findall2 TRACKLIST_REGEX "Monstercat Podcast, no tracklist" = []
  /\ fst (set_yt_data
            (dict [("description", VStr "Monstercat Podcast, no tracklist");
                   ("webpage_url", VStr "https://www.youtube.com/watch?v=x")])
            (MCLongSource_init (VStr "mix")))
     = Raise (AttributeError "'list' object has no attribute 'values'").
Proof. split; reflexivity. Qed.

(** ** Catalog resolver *)

(** [get_release] tests its query and raises before any request. *)
Lemma get_release_empty_query (upper lower quote : string -> string)
  (py_str : value -> string) (limit : Z) :
  get_release upper lower quote py_str (VStr "") limit
  = throw (ValueError "Nothing to search.").
Proof. reflexivity. Qed.

(** For every query [get_release] ends before its first request: what is
    not a string or is empty is refused, and for the rest [is_catalog_id]
    raises. *)
Lemma get_release_never_requests (upper lower quote : string -> string)
  (py_str : value -> string) (search : value) (limit : Z) :
  exists e, get_release upper lower quote py_str search limit = throw e
            /\ e <> wrong_type_multi /\ e <> wrong_type_long.
Proof.
  destruct search as [| b | n | x | s | xs | xs | items | p];
    try (exists (TypeError "search is not str."); repeat split; discriminate).
  unfold get_release. destruct (String.eqb s "").
  - exists (ValueError "Nothing to search."). repeat split; discriminate.
  - exists too_many_values. repeat split; discriminate.
Qed.

(** C9: [get_artist] with an empty query is to raise the validation error
    before any request.  The code starts with the request for the artist
    page of the empty name. *)
Theorem get_artist_empty_query_requests (lower quote : string -> string)
  (py_str : value -> string) (limit : Z) :
  exists k, get_artist lower quote py_str (VStr "") limit
            = HttpGet (artist_url lower quote "") k.
Proof. eexists. reflexivity. Qed.

Lemma perform_log {A : Type} (transport : list string -> string -> result response)
  (lookup_service : string -> result value) (m : io A) :
  forall log, exists more,
    snd (perform transport lookup_service m log) = (log ++ more)%list.
Proof.
  induction m as [a | url k IH | q k IH]; intros log; cbn [perform].
  - exists []. cbn. now rewrite app_nil_r.
  - destruct (IH (transport log url) (log ++ [url])%list) as [more ->].
    exists (url :: more). now rewrite <- app_assoc.
  - apply IH.
Qed.

(** Whatever the transport answers, the run of [get_artist] on the empty
    query has requested the artist page. *)
Lemma get_artist_empty_query_log (lower quote : string -> string)
  (py_str : value -> string) (limit : Z)
  (transport : list string -> string -> result response)
  (lookup_service : string -> result value) :
  exists more,
    snd (perform transport lookup_service
           (get_artist lower quote py_str (VStr "") limit) [])
    = artist_url lower quote "" :: more.
Proof.
  unfold get_artist, str_type_is_truthy, await, fetch. cbn [negb io_bind perform].
  match goal with
  | |- context [perform _ _ ?m ?log] =>
      destruct (perform_log transport lookup_service m log) as [more ->]
  end.
  exists more. reflexivity.
Qed.

(** ** Audio sources *)

(** The guard of [set_connect_data]: a release of a multi-track or long
    type is refused before any attribute is assigned. *)
Lemma set_connect_data_guard (py_str : value -> string)
  (strptime : value -> result value) (data tracks type : value) (self : object) :
  subscript data "type" = Ok type ->
  among type (MULTI_TYPES ++ LONG_TYPES) = true ->
  exists e, MCSingleSource_set_connect_data py_str strptime data tracks self
            = (Raise e, self)
            /\ (e = wrong_type_multi \/ e = wrong_type_long).
Proof.
  intros Ht Hin. unfold MCSingleSource_set_connect_data, mbind, eval.
  rewrite Ht. unfold among in Hin. rewrite existsb_app in Hin.
  fold (among type MULTI_TYPES) in Hin. fold (among type LONG_TYPES) in Hin.
  destruct (among type MULTI_TYPES) eqn:Hm.
  - exists wrong_type_multi. split; [reflexivity | now left].
  - rewrite orb_false_l in Hin. rewrite Hin.
    exists wrong_type_long. split; [reflexivity | now right].
Qed.

(** So the constructor, given such a release and a non-empty track list,
    raises the guard's exception and there is no source to use. *)
Lemma single_source_init_guard (py_str : value -> string)
  (strptime : value -> result value) (track data tracks type : value) :
  subscript data "type" = Ok type ->
  among type (MULTI_TYPES ++ LONG_TYPES) = true ->
  truthy data && truthy tracks = true ->
  exists e, MCSingleSource_init py_str strptime track data tracks = Raise e
            /\ (e = wrong_type_multi \/ e = wrong_type_long).
Proof.
  intros Ht Hin Hboth. unfold MCSingleSource_init, mbind, setattr. cbn.
  rewrite Hboth.
  match goal with
  | |- context [MCSingleSource_set_connect_data _ _ _ _ ?s] =>
      destruct (set_connect_data_guard py_str strptime data tracks type s Ht Hin)
        as (e & -> & He)
  end.
  exists e. split; [reflexivity | exact He].
Qed.

(** A source without catalog data: [get_info] asks [get_release] for it and
    ends there, with the error of [get_release] and no request made. *)
Lemma get_info_without_connect_data
  (upper lower quote : string -> string) (py_str : value -> string)
  (strptime : value -> result value) (track : value) (self : object) :
  assoc_get "_has_connect_data" (attrs self) = Some (VBool false) ->
  assoc_get "track" (attrs self) = Some track ->
  exists e,
    MCSingleSource_get_info upper lower quote py_str strptime self
    = Return (Raise e, self)
    /\ e <> wrong_type_multi /\ e <> wrong_type_long.
Proof.
  intros Hc Ht.
  destruct (get_release_never_requests upper lower quote py_str track 10)
    as (e & He & Hne).
  exists e. split; [| exact Hne].
  unfold MCSingleSource_get_info, tbind, sync, awaiting, getattr.
  rewrite Hc. cbn. rewrite Ht. cbn. rewrite He. reflexivity.
Qed.

(** C7: [get_info] on a single source made over a multi-track or long-form
    release is to fail with the error of the type guard.  In the code the
    source exists only if the constructor skipped the guard, and [get_info]
    then fails in [get_release], before the guard, with another error. *)
Theorem single_source_get_info_misses_guard
  (upper lower quote : string -> string) (py_str : value -> string)
  (strptime : value -> result value) (track data tracks type : value)
  (self : object) :
  subscript data "type" = Ok type ->
  among type (MULTI_TYPES ++ LONG_TYPES) = true ->
  MCSingleSource_init py_str strptime track data tracks = Ok self ->
  exists e,
    MCSingleSource_get_info upper lower quote py_str strptime self
    = Return (Raise e, self)
    /\ e <> wrong_type_multi /\ e <> wrong_type_long.
Proof.
  intros Ht Hin Hinit.
  destruct (truthy data && truthy tracks) eqn:Hboth.
  - destruct (single_source_init_guard py_str strptime track data tracks type
                Ht Hin Hboth) as (e & He & _).
    congruence.
  - unfold MCSingleSource_init, mbind, setattr in Hinit. cbn in Hinit.
    rewrite Hboth in Hinit. cbn in Hinit. injection Hinit as <-.
    apply (get_info_without_connect_data upper lower quote py_str strptime track);
      reflexivity.
Qed.

Lemma single_source_get_info_misses_guard_witness :
  subscript (dict [("type", VStr "Album")]) "type" = Ok (VStr "Album")
  /\ among (VStr "Album") (MULTI_TYPES ++ LONG_TYPES) = true
  /\ MCSingleSource_init (fun _ => "") Ok (VStr "MC025")
       (dict [("type", VStr "Album")]) (VList [])
     = Ok album_source
  /\ exists e,
       MCSingleSource_get_info (fun s => s) (fun s => s) (fun s => s)
         (fun _ => "") Ok album_source
       = Return (Raise e, album_source)
       /\ e <> wrong_type_multi /\ e <> wrong_type_long.
Proof.
  repeat (split; [reflexivity |]).
  apply (single_source_get_info_misses_guard (fun s => s) (fun s => s) (fun s => s)
           (fun _ => "") Ok (VStr "MC025") (dict [("type", VStr "Album")])
           (VList []) (VStr "Album")); reflexivity.
Defined.

(** At this source the error is the one of [is_catalog_id]. *)
Example album_source_get_info :
  MCSingleSource_get_info (fun s => s) (fun s => s) (fun s => s)
    (fun _ => "") Ok album_source
  = Return (Raise too_many_values, album_source).
Proof. reflexivity. Qed.

Lemma assoc_get_set (name : string) (v : value) (l : list (string * value)) :
  assoc_get name (assoc_set name v l) = Some v.
Proof.
  induction l as [| [n w] l IH]; cbn.
  - now rewrite String.eqb_refl.
  - destruct (String.eqb name n) eqn:E; cbn; rewrite E; [reflexivity | exact IH].
Qed.

(** [load] binds the decoder: after it the source has a [source]. *)
Lemma load_binds_source (FFmpegPCMAudio : value -> result value)
  (self self1 : object) :
  load FFmpegPCMAudio self = (Ok tt, self1) -> hasattr self1 "source" = true.
Proof.
  unfold load, mbind, getattr, eval, setattr, hasattr.
  destruct (assoc_get "stream_url" (attrs self)) as [u |]; [| discriminate].
  destruct (FFmpegPCMAudio u) as [h | e]; [| discriminate].
  intros H. injection H as <-. cbn [attrs]. now rewrite assoc_get_set.
Qed.

(** [loaded_source] is a source with a stream locator on which [load] has
    run. *)
Example loaded_source_from_load :
  load (fun _ => Ok (VStr "ffmpeg"))
    {| class_name := "MCLongSource";
       attrs := [("track", VStr "mix"); ("_has_connect_data", VBool true);
                 ("stream_url",
                  VStr "https://s3.amazonaws.com/data.monstercat.com/blobs/0")] |}
  = (Ok tt, loaded_source).
Proof. reflexivity. Qed.




(** A decoder whose [cleanup] raises makes [cleanup] of the source raise the
    same, with the decoder still bound. *)
Example cleanup_passes_failure :
  cleanup (fun h => (Raise (ValueError "no process"), h)) loaded_source
  = (Raise (ValueError "no process"), loaded_source).
Proof. reflexivity. Qed.

(** The cover of a release has to be a string: a number in its place is
    refused by [+] with the types of both operands. *)
Example add_str_refuses_number :
  add_str (VStr "cover") "?image_width=256" = Ok (VStr "cover?image_width=256")
  /\ add_str (VInt 1) "?image_width=256"
     = Raise (TypeError "unsupported operand type(s) for +: 'int' and 'str'")
  /\ add_str VNone "?image_width=256"
     = Raise (TypeError "unsupported operand type(s) for +: 'NoneType' and 'str'").
Proof. repeat split. Qed.


(** * Further properties *)

(** ** Duration codec: bounds and the other round trip *)

Lemma digit_value_range (c : ascii) :
  is_digit c = true -> 0 <= digit_value c <= 9.
Proof.
  destruct c as [[] [] [] [] [] [] [] []]; try discriminate; intros _;
    vm_compute; split; discriminate.
Qed.

Lemma digit_value_inj (a b : ascii) : digit_value a = digit_value b -> a = b.
Proof.
  unfold digit_value, code. intros H.
  assert (E : N_of_ascii a = N_of_ascii b) by lia.
  rewrite <- (ascii_N_embedding a), <- (ascii_N_embedding b). now rewrite E.
Qed.

Lemma colon_not_digit (c : ascii) : is_digit c = true -> Ascii.eqb ":" c = false.
Proof. by_bits c. Qed.

(** A field below one hundred is printed as its own two digits. *)
Lemma format_02_field (a b : ascii) :
  is_digit a = true -> is_digit b = true ->
  format_02 (field a b) = String a (String b EmptyString).
Proof.
  intros Ha Hb.
  pose proof (digit_value_range a Ha). pose proof (digit_value_range b Hb).
  destruct (format_02_below_100 (field a b) ltac:(unfold field; lia))
    as (a' & b' & -> & Ha' & Hb' & V).
  pose proof (digit_value_range a' Ha'). pose proof (digit_value_range b' Hb').
  unfold field in V.
  assert (digit_value a' = digit_value a) by lia.
  assert (digit_value b' = digit_value b) by lia.
  f_equal; [| f_equal]; now apply digit_value_inj.
Qed.

Lemma ok_inj {A : Type} (a b : A) : Ok a = Ok b -> a = b.
Proof. congruence. Qed.

(** X1: what [parse_duration] returns is never negative and at most
    99 hours, 99 minutes and 99 seconds, 362439. *)
Theorem parse_duration_bounds (s : string) (n : Z) :
  parse_duration s = Ok n -> 0 <= n <= 362439.
Proof.
  intros H.
  assert (exists t, spec_duration_format t = true /\ parse_duration t = Ok n)
    as (t & Ht & Hp).
  { destruct (Re.match_ DURATION_REGEX s) as [m |] eqn:M.
    - destruct (duration_regex_shape s m M) as [Hs | (t & -> & Hs)].
      + now exists s.
      + exists t. split; [exact Hs |].
        now rewrite <- (parse_duration_final_newline t Hs).
    - unfold parse_duration in H. rewrite M in H. discriminate. }
  destruct (spec_format_inv t Ht)
    as [(a & b & c & d & -> & Ha & Hb & Hc & Hd)
       | (h1 & h2 & a & b & c & d & -> & H1 & H2 & Ha & Hb & Hc & Hd)].
  - rewrite (parse_duration_mmss a b c d Ha Hb Hc Hd) in Hp.
    apply ok_inj in Hp. subst n.
    pose proof (digit_value_range a Ha). pose proof (digit_value_range b Hb).
    pose proof (digit_value_range c Hc). pose proof (digit_value_range d Hd). lia.
  - rewrite (parse_duration_hhmmss h1 h2 a b c d H1 H2 Ha Hb Hc Hd) in Hp.
    apply ok_inj in Hp. subst n.
    pose proof (digit_value_range h1 H1). pose proof (digit_value_range h2 H2).
    pose proof (digit_value_range a Ha). pose proof (digit_value_range b Hb).
    pose proof (digit_value_range c Hc). pose proof (digit_value_range d Hd). lia.
Qed.

Lemma parse_duration_bounds_witness :
  parse_duration "99:99:99" = Ok 362439 /\ 0 <= 362439 <= 362439.
Proof.
  split; [reflexivity | apply (parse_duration_bounds "99:99:99"); reflexivity].
Defined.

(** X2: below one hundred hours [gen_duration] writes a string of the exact
    format, in its canonical form, [MM:SS] under an hour and [HH:MM:SS] from
    one hour on. *)
Theorem gen_duration_format (s : Z) :
  0 <= s < 360000 ->
  exists t, gen_duration (IntSeconds s) = Ok t
            /\ spec_duration_format t = true
            /\ canonical_duration t = true
            /\ String.length t = if s <? 3600 then 5%nat else 8%nat.
Proof.
  intros Hs. unfold gen_duration. cbn [bind].
  pose proof (Z.div_mod s 60 ltac:(lia)) as Hsec.
  pose proof (Z.mod_pos_bound s 60 ltac:(lia)) as Bsec.
  pose proof (Z.div_mod (s / 60) 60 ltac:(lia)) as Hmin.
  pose proof (Z.mod_pos_bound (s / 60) 60 ltac:(lia)) as Bmin.
  assert (Bh : 0 <= s / 60 / 60 < 100).
  { split.
    - apply Z.div_pos; [apply Z.div_pos |]; lia.
    - apply Z.div_lt_upper_bound; [lia |].
      apply Z.div_lt_upper_bound; lia. }
  destruct (format_02_below_100 (s mod 60) ltac:(lia))
    as (c & d & -> & Hc & Hd & Vs).
  destruct (format_02_below_100 ((s / 60) mod 60) ltac:(lia))
    as (a & b & -> & Ha & Hb & Vm).
  destruct (format_02_below_100 _ Bh) as (h1 & h2 & -> & H1 & H2 & Vh).
  eexists. split; [reflexivity |].
  destruct (s / 60 / 60 =? 0) eqn:Hz; cbn [negb append].
  - apply Z.eqb_eq in Hz.
    unfold spec_duration_format, canonical_duration, field.
    cbn [list_ascii_of_string]. rewrite Ha, Hb, Hc, Hd, Vs, Vm.
    repeat split.
    + apply andb_true_intro. split; apply Z.ltb_lt; lia.
    + destruct (s <? 3600) eqn:L; [reflexivity | apply Z.ltb_ge in L; lia].
  - apply Z.eqb_neq in Hz.
    unfold spec_duration_format, canonical_duration, field.
    cbn [list_ascii_of_string]. rewrite H1, H2, Ha, Hb, Hc, Hd, Vs, Vm, Vh.
    repeat split.
    + repeat (apply andb_true_intro; split); apply Z.ltb_lt; lia.
    + destruct (s <? 3600) eqn:L; [apply Z.ltb_lt in L; lia | reflexivity].
Qed.

Lemma gen_duration_format_witness :
  0 <= 3723 < 360000
  /\ exists t, gen_duration (IntSeconds 3723) = Ok t
               /\ spec_duration_format t = true
               /\ canonical_duration t = true
               /\ String.length t = if 3723 <? 3600 then 5%nat else 8%nat.
Proof.
  split; [lia | apply (gen_duration_format 3723); lia].
Defined.

(** X3: the round trip from the text: a duration in canonical form is
    decoded to a number that [gen_duration] writes back as the same text. *)
Theorem gen_parse_duration_roundtrip (t : string) :
  spec_duration_format t = true ->
  canonical_duration t = true ->
  exists n, parse_duration t = Ok n /\ gen_duration (IntSeconds n) = Ok t.
Proof.
  intros Ht Hc0.
  destruct (spec_format_inv t Ht)
    as [(a & b & c & d & -> & Ha & Hb & Hc & Hd)
       | (h1 & h2 & a & b & c & d & -> & H1 & H2 & Ha & Hb & Hc & Hd)].
  - unfold canonical_duration in Hc0. cbn [list_ascii_of_string] in Hc0.
    apply andb_prop in Hc0 as [Lm Ls].
    apply Z.ltb_lt in Lm. apply Z.ltb_lt in Ls.
    pose proof (digit_value_range a Ha). pose proof (digit_value_range b Hb).
    pose proof (digit_value_range c Hc). pose proof (digit_value_range d Hd).
    eexists. split; [apply (parse_duration_mmss a b c d Ha Hb Hc Hd) |].
    fold (field a b). fold (field c d). unfold gen_duration. cbn [bind].
    assert (Em : (field a b * 60 + field c d) / 60 = field a b)
      by (symmetry; apply (Z.div_unique _ 60 _ (field c d)); unfold field in *; lia).
    assert (Es : (field a b * 60 + field c d) mod 60 = field c d)
      by (symmetry; apply (Z.mod_unique _ 60 (field a b)); unfold field in *; lia).
    rewrite Em, Es.
    rewrite (Z.div_small (field a b) 60) by (unfold field in *; lia).
    rewrite (Z.mod_small (field a b) 60) by (unfold field in *; lia).
    cbn [Z.eqb negb].
    rewrite (format_02_field a b Ha Hb), (format_02_field c d Hc Hd). reflexivity.
  - unfold canonical_duration in Hc0. cbn [list_ascii_of_string] in Hc0.
    apply andb_prop in Hc0 as [Hc0 Ls]. apply andb_prop in Hc0 as [Lh Lm].
    apply Z.ltb_lt in Lh. apply Z.ltb_lt in Lm. apply Z.ltb_lt in Ls.
    pose proof (digit_value_range h1 H1). pose proof (digit_value_range h2 H2).
    pose proof (digit_value_range a Ha). pose proof (digit_value_range b Hb).
    pose proof (digit_value_range c Hc). pose proof (digit_value_range d Hd).
    eexists. split; [apply (parse_duration_hhmmss h1 h2 a b c d H1 H2 Ha Hb Hc Hd) |].
    fold (field h1 h2). fold (field a b). fold (field c d).
    unfold gen_duration. cbn [bind].
    assert (Em : (field h1 h2 * 60 * 60 + field a b * 60 + field c d) / 60
                 = field h1 h2 * 60 + field a b)
      by (symmetry; apply (Z.div_unique _ 60 _ (field c d)); unfold field in *; lia).
    assert (Es : (field h1 h2 * 60 * 60 + field a b * 60 + field c d) mod 60
                 = field c d)
      by (symmetry; apply (Z.mod_unique _ 60 (field h1 h2 * 60 + field a b));
          unfold field in *; lia).
    rewrite Em, Es.
    assert (Eh : (field h1 h2 * 60 + field a b) / 60 = field h1 h2)
      by (symmetry; apply (Z.div_unique _ 60 _ (field a b)); unfold field in *; lia).
    assert (En : (field h1 h2 * 60 + field a b) mod 60 = field a b)
      by (symmetry; apply (Z.mod_unique _ 60 (field h1 h2)); unfold field in *; lia).
    rewrite Eh, En.
    destruct (field h1 h2 =? 0) eqn:Z0; [apply Z.eqb_eq in Z0; lia |].
    cbn [negb].
    rewrite (format_02_field h1 h2 H1 H2), (format_02_field a b Ha Hb),
      (format_02_field c d Hc Hd). reflexivity.
Qed.

Lemma gen_parse_duration_roundtrip_witness :
  spec_duration_format "01:02:03" = true
  /\ canonical_duration "01:02:03" = true
  /\ exists n, parse_duration "01:02:03" = Ok n
               /\ gen_duration (IntSeconds n) = Ok "01:02:03".
Proof.
  split; [reflexivity | split; [reflexivity |]].
  apply (gen_parse_duration_roundtrip "01:02:03"); reflexivity.
Defined.

(** *** Outside the range of the round trip *)

Lemma format_02_negative (n : Z) :
  n < 0 -> exists r, format_02 n = String "-" r.
Proof.
  intros Hn. unfold format_02.
  destruct (n <? 0) eqn:L; [| apply Z.ltb_ge in L; lia].
  eexists. reflexivity.
Qed.

Lemma format_02_three_digits (n : Z) :
  100 <= n < 1000 ->
  exists a b c, format_02 n = String a (String b (String c EmptyString))
                /\ is_digit a = true /\ is_digit b = true /\ is_digit c = true.
Proof.
  intros Hn.
  assert (Hall : forallb three_digits_of (map Z.of_nat (seq 100 900)) = true)
    by (vm_compute; reflexivity).
  rewrite forallb_forall in Hall.
  assert (Hin : In n (map Z.of_nat (seq 100 900))).
  { apply in_map_iff. exists (Z.to_nat n). split; [lia |].
    apply in_seq. lia. }
  specialize (Hall n Hin). unfold three_digits_of in Hall.
  destruct (format_02 n) as [| a [| b [| c [| ? ?]]]]; try discriminate.
  apply andb_prop in Hall as [Hab Hc]. apply andb_prop in Hab as [Ha Hb].
  exists a, b, c. auto.
Qed.

Lemma duration_regex_rejects_sign (rest : string) :
  Re.match_ DURATION_REGEX (String "-" rest) = None.
Proof. reflexivity. Qed.

Section ThreeDigits.

#[local] Arguments Ascii.eqb : simpl never.

Lemma duration_regex_rejects_three_digits (a b c : ascii) (rest : string) :
  is_digit a = true -> is_digit b = true -> is_digit c = true ->
  Re.match_ DURATION_REGEX (String a (String b (String c rest))) = None.
Proof.
  intros Ha Hb Hc. unfold Re.match_, DURATION_REGEX, digit. cbn.
  unfold Re.one. cbn. rewrite Ha. cbn. rewrite Hb. cbn.
  rewrite (colon_not_digit c Hc). reflexivity.
Qed.

End ThreeDigits.

(** X4: the bound of the round trip is where it stops.  For a negative
    number of seconds, and from 360000 up to a thousand hours, [gen_duration]
    still writes a string, and [parse_duration] refuses it. *)
Theorem parse_gen_duration_out_of_range (s : Z) :
  s < 0 \/ 360000 <= s < 3600000 ->
  exists t, gen_duration (IntSeconds s) = Ok t
            /\ parse_duration t = Raise duration_format_error.
Proof.
  intros Hs. unfold gen_duration. cbn [bind].
  eexists. split; [reflexivity |].
  destruct Hs as [Hneg | Hbig].
  - assert (Hh : s / 60 / 60 < 0).
    { apply Z.div_lt_upper_bound; [lia |].
      apply Z.div_lt_upper_bound; lia. }
    destruct (s / 60 / 60 =? 0) eqn:Hz; [apply Z.eqb_eq in Hz; lia |].
    cbn [negb]. destruct (format_02_negative _ Hh) as [r ->].
    unfold parse_duration. cbn [append].
    now rewrite duration_regex_rejects_sign.
  - assert (Hh : 100 <= s / 60 / 60 < 1000).
    { split.
      - apply Z.div_le_lower_bound; [lia |].
        apply Z.div_le_lower_bound; lia.
      - apply Z.div_lt_upper_bound; [lia |].
        apply Z.div_lt_upper_bound; lia. }
    destruct (s / 60 / 60 =? 0) eqn:Hz; [apply Z.eqb_eq in Hz; lia |].
    cbn [negb].
    destruct (format_02_three_digits _ Hh) as (a & b & c & -> & Ha & Hb & Hc).
    unfold parse_duration. cbn [append].
    now rewrite (duration_regex_rejects_three_digits a b c _ Ha Hb Hc).
Qed.

Lemma parse_gen_duration_out_of_range_witness :
  (360000 < 0 \/ 360000 <= 360000 < 3600000)
  /\ exists t, gen_duration (IntSeconds 360000) = Ok t
               /\ parse_duration t = Raise duration_format_error.
Proof.
  split; [right; lia | apply (parse_gen_duration_out_of_range 360000); right; lia].
Defined.

(** ** Catalog resolver: what the lookups request *)

(** X5: [get_release] returns no release: whatever the query and the
    transport, it ends in an exception and has requested nothing. *)
Theorem get_release_never_returns (upper lower quote : string -> string)
  (py_str : value -> string) (search : value) (limit : Z)
  (transport : list string -> string -> result response)
  (lookup_service : string -> result value) :
  exists e,
    perform transport lookup_service
      (get_release upper lower quote py_str search limit) []
    = (Raise e, []).
Proof.
  destruct (get_release_never_requests upper lower quote py_str search limit)
    as (e & -> & _).
  exists e. reflexivity.
Qed.

(** X6: [release_from_id] refuses an empty or non-string id before any
    request; for any other id it makes exactly one request, for the release
    of that id, and hands back the decoded body of a 2xx answer as it is,
    also when the body reports an error. *)
Theorem release_from_id_request (id : value)
  (transport : list string -> string -> result response)
  (lookup_service : string -> result value) :
  perform transport lookup_service (release_from_id id) []
  = match id with
    | VStr EmptyString => (Raise (ValueError "No id given."), [])
    | VStr s => (outcome_of (transport [] (release_url s)), [release_url s])
    | _ => (Raise (TypeError "id is not str."), [])
    end.
Proof.
  destruct id as [| b | n | x | s | xs | xs | items | p]; try reflexivity.
  destruct s as [| c s]; [reflexivity |].
  unfold release_from_id, fetch, outcome_of, release_url. cbn [String.eqb perform].
  destruct (transport [] _) as [r | e]; [| reflexivity].
  destruct ((200 <=? status r) && (status r <? 300)); reflexivity.
Qed.


(** *** [get_artist], request by request *)

Section GetArtist.

Variables lower quote : string -> string.
Variable py_str : value -> string.
Variable transport : list string -> string -> result response.
Variable lookup_service : string -> result value.

Ltac run_lookup :=
  unfold get_artist, str_type_is_truthy, await, fetch, lift, throw, artist_url,
    artist_releases_url, artist_search_url in *;
  cbn [negb io_bind perform app].

Ltac answered H :=
  let r := fresh "r" in
  let E := fresh "E" in
  let S := fresh "S" in
  let J := fresh "J" in
  destruct H as (r & E & S & J); rewrite E; cbn [io_bind perform app];
  rewrite S, J; cbn [io_bind perform app].

Ltac known H := rewrite H; cbn [io_bind perform app bind negb].

(** X8: a first answer outside 2xx ends [get_artist] after that one request,
    with [ValueError] carrying the status code. *)
Theorem get_artist_bad_status (search : string) (limit : Z) (r : response) :
  transport [] (artist_url lower quote search) = Ok r ->
  (200 <=? status r) && (status r <? 300) = false ->
  perform transport lookup_service
    (get_artist lower quote py_str (VStr search) limit) []
  = (Raise (invalid_response_code (status r)), [artist_url lower quote search]).
Proof.
  intros Ht Hs. run_lookup. rewrite Ht, Hs. reflexivity.
Qed.

(** X9: when the artist page answers 2xx with a body without ['error'],
    no search is made.  A body without [vanityUri] ends the call in the
    exception of that lookup after the one request.  Otherwise there are
    exactly two requests, the artist page and the releases under the
    [vanityUri], and the outcome is that of the second: the artist with the
    [results] of a 2xx answer, or the error of the request or of the
    missing [results]. *)
Theorem get_artist_direct_hit (search : string) (limit : Z) (data : value) :
  answers (transport [] (artist_url lower quote search)) data ->
  contains "error" data = Ok false ->
  perform transport lookup_service
    (get_artist lower quote py_str (VStr search) limit) []
  = match subscript data "vanityUri" with
    | Raise e => (Raise e, [artist_url lower quote search])
    | Ok vanity =>
        ((releases <- outcome_of
                        (transport [artist_url lower quote search]
                           (artist_releases_url py_str vanity)) ;;
          results <- subscript releases "results" ;;
          Ok (data, results))%res,
         [artist_url lower quote search; artist_releases_url py_str vanity])
    end.
Proof.
  intros H1 He. run_lookup. answered H1. known He.
  destruct (subscript data "vanityUri") as [vanity | e];
    cbn [io_bind perform app bind]; [| reflexivity].
  unfold outcome_of.
  destruct (transport (_ :: _) _) as [answer | e]; cbn [io_bind perform app bind];
    [| reflexivity].
  destruct ((200 <=? status answer) && (status answer <? 300));
    cbn [io_bind perform app bind]; [| reflexivity].
  destruct (json answer) as [releases | e]; cbn [io_bind perform app bind];
    [| reflexivity].
  destruct (subscript releases "results"); reflexivity.
Qed.

(** X10: when the artist page answers with the error ["Artist not found."],
    [get_artist] searches by name and vanity identifier, with the query as
    typed, and an empty result list ends it in [ValueError]. *)
Theorem get_artist_fallback_empty (search : string) (limit : Z)
  (data found results : value) :
  answers (transport [] (artist_url lower quote search)) data ->
  contains "error" data = Ok true ->
  subscript data "message" = Ok (VStr "Artist not found.") ->
  answers (transport [artist_url lower quote search]
             (artist_search_url quote search limit)) found ->
  subscript found "results" = Ok results ->
  truthy results = false ->
  perform transport lookup_service
    (get_artist lower quote py_str (VStr search) limit) []
  = (Raise (ValueError "Artist not found."),
     [artist_url lower quote search; artist_search_url quote search limit]).
Proof.
  intros H1 He Hm H2 Hr Hempty. run_lookup.
  answered H1. known He. known Hm.
  change (equals_str (VStr "Artist not found.") "Artist not found.") with true.
  cbn [io_bind perform app bind negb].
  answered H2. known Hr. known Hempty. reflexivity.
Qed.

(** X11: any other error of the artist page is raised as it is, after that
    one request: no search is tried. *)
Theorem get_artist_other_error (search : string) (limit : Z)
  (data message : value) :
  answers (transport [] (artist_url lower quote search)) data ->
  contains "error" data = Ok true ->
  subscript data "message" = Ok message ->
  equals_str message "Artist not found." = false ->
  perform transport lookup_service
    (get_artist lower quote py_str (VStr search) limit) []
  = (Raise (ValueError (py_str message)), [artist_url lower quote search]).
Proof.
  intros H1 He Hm Hne. run_lookup.
  answered H1. known He. known Hm. known Hne. reflexivity.
Qed.

End GetArtist.

Lemma get_artist_bad_status_witness :
  example_transport [] (artist_url same same "nobody")
  = Ok {| status := 404; json := Raise (ValueError "no body") |}
  /\ (200 <=? 404) && (404 <? 300) = false
  /\ perform example_transport no_lookup
       (get_artist same same text (VStr "nobody") 10) []
     = (Raise (invalid_response_code 404), [artist_url same same "nobody"]).
Proof.
  split; [reflexivity | split; [reflexivity |]].
  apply (get_artist_bad_status same same text example_transport no_lookup
           "nobody" 10 {| status := 404; json := Raise (ValueError "no body") |});
    reflexivity.
Defined.

Lemma get_artist_direct_hit_witness :
  answers (example_transport [] (artist_url same same "artist")) example_artist
  /\ contains "error" example_artist = Ok false
  /\ perform example_transport no_lookup
       (get_artist same same text (VStr "artist") 10) []
     = (Ok (example_artist, VList []),
        [artist_url same same "artist"; artist_releases_url text (VStr "artist")]).
Proof.
  assert (A1 : answers (example_transport [] (artist_url same same "artist"))
                 example_artist)
    by (eexists; split; [reflexivity | split; reflexivity]).
  split; [exact A1 | split; [reflexivity |]].
  exact (get_artist_direct_hit same same text example_transport no_lookup
           "artist" 10 example_artist A1 eq_refl).
Defined.

Lemma get_artist_fallback_empty_witness :
  answers (example_transport [] (artist_url same same "ghost")) not_found
  /\ contains "error" not_found = Ok true
  /\ subscript not_found "message" = Ok (VStr "Artist not found.")
  /\ answers (example_transport [artist_url same same "ghost"]
                (artist_search_url same "ghost" 10))
       (dict [("results", VList [])])
  /\ subscript (dict [("results", VList [])]) "results" = Ok (VList [])
  /\ truthy (VList []) = false
  /\ perform example_transport no_lookup
       (get_artist same same text (VStr "ghost") 10) []
     = (Raise (ValueError "Artist not found."),
        [artist_url same same "ghost"; artist_search_url same "ghost" 10]).
Proof.
  assert (A1 : answers (example_transport [] (artist_url same same "ghost")) not_found)
    by (eexists; split; [reflexivity | split; reflexivity]).
  assert (A2 : answers (example_transport [artist_url same same "ghost"]
                          (artist_search_url same "ghost" 10))
                 (dict [("results", VList [])]))
    by (eexists; split; [reflexivity | split; reflexivity]).
  split; [exact A1 | split; [reflexivity | split; [reflexivity |
    split; [exact A2 | split; [reflexivity | split; [reflexivity |]]]]]].
  apply (get_artist_fallback_empty same same text example_transport no_lookup
           "ghost" 10 not_found (dict [("results", VList [])]) (VList []) A1);
    [reflexivity | reflexivity | exact A2 | reflexivity | reflexivity].
Defined.

Lemma get_artist_other_error_witness :
  answers (example_transport [] (artist_url same same "broken")) internal_error
  /\ contains "error" internal_error = Ok true
  /\ subscript internal_error "message" = Ok (VStr "Internal error.")
  /\ equals_str (VStr "Internal error.") "Artist not found." = false
  /\ perform example_transport no_lookup
       (get_artist same same text (VStr "broken") 10) []
     = (Raise (ValueError "Internal error."), [artist_url same same "broken"]).
Proof.
  assert (A1 : answers (example_transport [] (artist_url same same "broken"))
                 internal_error)
    by (eexists; split; [reflexivity | split; reflexivity]).
  split; [exact A1 | split; [reflexivity | split; [reflexivity |
    split; [reflexivity |]]]].
  apply (get_artist_other_error same same text example_transport no_lookup
           "broken" 10 internal_error (VStr "Internal error.") A1); reflexivity.
Defined.

(** ** Single sources: constructor, catalog data and [get_info] *)

Lemma assoc_get_set_other (name other : string) (v : value)
  (l : list (string * value)) :
  String.eqb name other = false ->
  assoc_get name (assoc_set other v l) = assoc_get name l.
Proof.
  intros Hne. induction l as [| [n w] l IH]; cbn.
  - now rewrite Hne.
  - destruct (String.eqb other n) eqn:E; cbn.
    + apply String.eqb_eq in E. subst n. now rewrite Hne.
    + destruct (String.eqb name n); [reflexivity | exact IH].
Qed.

Lemma subscript_ok_truthy (data v : value) (k : string) :
  subscript data k = Ok v -> truthy data = true.
Proof.
  destruct data as [| b | n | x | s | xs | xs | items | p]; try discriminate.
  destruct items; [discriminate | reflexivity].
Qed.

(** X12: the constructor refuses a multi-track or long-form release given
    with its tracks: it raises the error of the type guard, and there is no
    source. *)
Theorem single_source_init_refuses (py_str : value -> string)
  (strptime : value -> result value) (track data tracks type : value) :
  subscript data "type" = Ok type ->
  among type (MULTI_TYPES ++ LONG_TYPES) = true ->
  truthy tracks = true ->
  exists e, MCSingleSource_init py_str strptime track data tracks = Raise e
            /\ (e = wrong_type_multi \/ e = wrong_type_long).
Proof.
  intros Ht Hin Htr.
  apply (single_source_init_guard py_str strptime track data tracks type Ht Hin).
  now rewrite (subscript_ok_truthy data type "type" Ht), Htr.
Qed.

Lemma single_source_init_refuses_witness :
  subscript (dict [("type", VStr "EP")]) "type" = Ok (VStr "EP")
  /\ among (VStr "EP") (MULTI_TYPES ++ LONG_TYPES) = true
  /\ truthy (VList [example_track]) = true
  /\ exists e,
       MCSingleSource_init text Ok (VStr "MCEP014") (dict [("type", VStr "EP")])
         (VList [example_track]) = Raise e
       /\ (e = wrong_type_multi \/ e = wrong_type_long).
Proof.
  split; [reflexivity | split; [reflexivity | split; [reflexivity |]]].
  apply (single_source_init_refuses text Ok (VStr "MCEP014")
           (dict [("type", VStr "EP")]) (VList [example_track]) (VStr "EP"));
    reflexivity.
Defined.

Ltac step_method H :=
  match type of H with
  | context [match ?r with Ok _ => _ | Raise _ => _ end] =>
      let E := fresh "E" in destruct r eqn:E
  | context [if ?b then _ else _] =>
      let E := fresh "E" in destruct b eqn:E
  end.

Ltac other_attrs :=
  repeat (rewrite assoc_get_set_other by reflexivity).

(** X13: [_has_connect_data] tells whether [set_connect_data] went through:
    it is true after a call that returned, and untouched by a call that
    raised, wherever it raised. *)
Theorem set_connect_data_flag (py_str : value -> string)
  (strptime : value -> result value) (data tracks : value) (self : object) :
  assoc_get "_has_connect_data"
    (attrs (snd (MCSingleSource_set_connect_data py_str strptime data tracks self)))
  = match fst (MCSingleSource_set_connect_data py_str strptime data tracks self) with
    | Ok _ => Some (VBool true)
    | Raise _ => assoc_get "_has_connect_data" (attrs self)
    end.
Proof.
  destruct (MCSingleSource_set_connect_data py_str strptime data tracks self)
    as [r self1] eqn:H.
  unfold MCSingleSource_set_connect_data, mbind, eval, raise, setattr in H.
  cbn [fst snd attrs class_name] in H.
  repeat step_method H; injection H as <- <-; cbn [fst snd attrs];
    other_attrs; try reflexivity.
  apply assoc_get_set.
Qed.

(** X14: a call of [set_connect_data] that returns has passed the guard and
    left every field of the source assigned, tempo and duration as
    integers. *)
Theorem set_connect_data_complete (py_str : value -> string)
  (strptime : value -> result value) (data tracks : value) (self self1 : object) :
  MCSingleSource_set_connect_data py_str strptime data tracks self = (Ok tt, self1) ->
  (exists type, subscript data "type" = Ok type
                /\ among type (MULTI_TYPES ++ LONG_TYPES) = false)
  /\ forallb (hasattr self1) connect_attributes = true
  /\ (exists bpm duration,
        assoc_get "bpm" (attrs self1) = Some (VInt bpm)
        /\ assoc_get "duration" (attrs self1) = Some (VInt duration)).
Proof.
  intros H.
  unfold MCSingleSource_set_connect_data, mbind, eval, raise, setattr in H.
  cbn [fst snd attrs class_name] in H.
  destruct (subscript data "type") as [type |] eqn:Ety; [| discriminate].
  destruct (among type MULTI_TYPES) eqn:Em; [discriminate |].
  destruct (among type LONG_TYPES) eqn:El; [discriminate |].
  repeat step_method H; try discriminate.
  injection H as <-.
  split; [| split].
  - exists type. split; [reflexivity |].
    unfold among in *. now rewrite existsb_app, Em, El.
  - unfold connect_attributes, hasattr. cbn [forallb attrs].
    other_attrs.
    repeat (rewrite assoc_get_set; other_attrs). reflexivity.
  - eexists _, _. cbn [attrs]. split; other_attrs; apply assoc_get_set.
Qed.

Lemma set_connect_data_complete_witness :
  MCSingleSource_set_connect_data text Ok example_release (VList [example_track])
    (MCSource_init "MCSingleSource" (VStr "song"))
  = (Ok tt, resolved_source)
  /\ (exists type, subscript example_release "type" = Ok type
                   /\ among type (MULTI_TYPES ++ LONG_TYPES) = false)
  /\ forallb (hasattr resolved_source) connect_attributes = true
  /\ (exists bpm duration,
        assoc_get "bpm" (attrs resolved_source) = Some (VInt bpm)
        /\ assoc_get "duration" (attrs resolved_source) = Some (VInt duration)).
Proof.
  split; [reflexivity |].
  apply (set_connect_data_complete text Ok example_release (VList [example_track])
           (MCSource_init "MCSingleSource" (VStr "song")) resolved_source).
  reflexivity.
Defined.

(** [get_info], case by case. *)
Section SingleGetInfo.

Variables upper lower quote : string -> string.
Variable py_str : value -> string.
Variable strptime : value -> result value.

Ltac open_get_info :=
  unfold MCSingleSource_get_info, tbind, sync, awaiting, getattr, setattr,
    delattr, eval, ret;
  cbn [io_bind fst snd attrs class_name negb].

(** X15: on a source that has its catalog data and its [url], [get_info]
    returns at once: nothing is fetched or looked up again and the source
    stays as it is. *)
Theorem get_info_once_resolved (self : object) (flag : value) :
  assoc_get "_has_connect_data" (attrs self) = Some flag ->
  truthy flag = true ->
  hasattr self "url" = true ->
  MCSingleSource_get_info upper lower quote py_str strptime self
  = Return (Ok tt, self).
Proof.
  intros Hf Ht Hu. open_get_info. rewrite Hf. cbn [io_bind]. rewrite Ht.
  cbn [io_bind negb]. rewrite Hu. reflexivity.
Qed.

(** X16: with catalog data and no [url] yet, a release that carries a link
    to youtube.com gives the [url]: the first such link, in the order of the
    release.  The release data is dropped from the source, and no lookup is
    made. *)
Theorem get_info_release_link (self : object) (flag data urls link : value)
  (more : list value) :
  assoc_get "_has_connect_data" (attrs self) = Some flag ->
  truthy flag = true ->
  hasattr self "url" = false ->
  assoc_get "_data" (attrs self) = Some data ->
  subscript data "urls" = Ok urls ->
  youtube_links urls = Ok (link :: more) ->
  MCSingleSource_get_info upper lower quote py_str strptime self
  = Return (Ok tt, without_attr "_data" (with_attr "url" link self)).
Proof.
  intros Hf Ht Hu Hd Hs Hl. open_get_info. rewrite Hf. cbn [io_bind]. rewrite Ht.
  cbn [io_bind negb]. rewrite Hu. cbn [io_bind negb]. rewrite Hd. cbn [io_bind].
  rewrite (subscript_ok_truthy data urls "urls" Hs), Hs. cbn [bind].
  rewrite Hl. cbn [io_bind bind]. rewrite Hd. cbn [io_bind].
  rewrite Hs. cbn [bind]. rewrite Hl. cbn [io_bind bind index nth_error].
  rewrite (assoc_get_set_other "_data" "url") by reflexivity. rewrite Hd.
  reflexivity.
Qed.

(** X17: with catalog data, no [url] and no such link, [get_info] asks the
    lookup service for ["<artists> - <title>"] and takes the [url] from the
    answer, or from its first entry when the answer has [entries].  The
    release data stays on the source. *)
Theorem get_info_lookup (self : object) (flag data artists title found video url : value)
  (transport : list string -> string -> result response)
  (lookup_service : string -> result value) :
  assoc_get "_has_connect_data" (attrs self) = Some flag ->
  truthy flag = true ->
  hasattr self "url" = false ->
  assoc_get "_data" (attrs self) = Some data ->
  release_links data = Ok [] ->
  assoc_get "artists" (attrs self) = Some artists ->
  assoc_get "title" (attrs self) = Some title ->
  lookup_service (py_str artists ++ " - " ++ py_str title) = Ok found ->
  (contains "entries" found = Ok false /\ video = found
   \/ contains "entries" found = Ok true
      /\ (es <- subscript found "entries" ;; item es 0) = Ok video) ->
  subscript video "webpage_url" = Ok url ->
  perform transport lookup_service
    (MCSingleSource_get_info upper lower quote py_str strptime self) []
  = ((Ok tt, with_attr "url" url self), []).
Proof.
  intros Hf Ht Hu Hd Hl Ha Hti Hq Hv Hw. unfold release_links in Hl.
  open_get_info. rewrite Hf. cbn [io_bind]. rewrite Ht.
  cbn [io_bind negb]. rewrite Hu. cbn [io_bind negb]. rewrite Hd. cbn [io_bind].
  rewrite Hl. cbn [io_bind]. rewrite Ha. cbn [io_bind]. rewrite Hti.
  cbn [io_bind perform]. rewrite Hq. cbn [io_bind perform].
  destruct Hv as [[He ->] | [He Hv]]; rewrite He; cbn [io_bind perform].
  - rewrite Hw. reflexivity.
  - rewrite Hv. cbn [io_bind perform]. rewrite Hw. reflexivity.
Qed.

End SingleGetInfo.

Lemma get_info_once_resolved_witness :
  assoc_get "_has_connect_data"
    (attrs (with_attr "url" (VStr "https://youtu.be/x") resolved_source))
  = Some (VBool true)
  /\ truthy (VBool true) = true
  /\ hasattr (with_attr "url" (VStr "https://youtu.be/x") resolved_source) "url" = true
  /\ MCSingleSource_get_info same same same text Ok
       (with_attr "url" (VStr "https://youtu.be/x") resolved_source)
     = Return (Ok tt, with_attr "url" (VStr "https://youtu.be/x") resolved_source).
Proof.
  split; [reflexivity | split; [reflexivity | split; [reflexivity |]]].
  apply (get_info_once_resolved same same same text Ok
           (with_attr "url" (VStr "https://youtu.be/x") resolved_source)
           (VBool true)); reflexivity.
Defined.

Lemma get_info_release_link_witness :
  assoc_get "_has_connect_data" (attrs (constructed constructed_source))
  = Some (VBool true)
  /\ truthy (VBool true) = true
  /\ hasattr (constructed constructed_source) "url" = false
  /\ assoc_get "_data" (attrs (constructed constructed_source)) = Some example_release
  /\ subscript example_release "urls"
     = Ok (VList [VStr "https://open.spotify.com/track/1";
                  VStr "https://www.youtube.com/watch?v=x"])
  /\ youtube_links (VList [VStr "https://open.spotify.com/track/1";
                           VStr "https://www.youtube.com/watch?v=x"])
     = Ok [VStr "https://www.youtube.com/watch?v=x"]
  /\ MCSingleSource_get_info same same same text Ok (constructed constructed_source)
     = Return (Ok tt,
               without_attr "_data"
                 (with_attr "url" (VStr "https://www.youtube.com/watch?v=x")
                    (constructed constructed_source))).
Proof.
  repeat (split; [reflexivity |]).
  apply (get_info_release_link same same same text Ok
           (constructed constructed_source) (VBool true) example_release
           (VList [VStr "https://open.spotify.com/track/1";
                   VStr "https://www.youtube.com/watch?v=x"])
           (VStr "https://www.youtube.com/watch?v=x") []); reflexivity.
Defined.

Lemma get_info_lookup_witness :
  assoc_get "_has_connect_data" (attrs (constructed unlinked_source))
  = Some (VBool true)
  /\ truthy (VBool true) = true
  /\ hasattr (constructed unlinked_source) "url" = false
  /\ assoc_get "_data" (attrs (constructed unlinked_source)) = Some unlinked_release
  /\ release_links unlinked_release = Ok []
  /\ assoc_get "artists" (attrs (constructed unlinked_source)) = Some (VStr "Artist")
  /\ assoc_get "title" (attrs (constructed unlinked_source)) = Some (VStr "Song")
  /\ example_lookup (text (VStr "Artist") ++ " - " ++ text (VStr "Song"))
     = Ok example_video
  /\ (contains "entries" example_video = Ok false /\ example_video = example_video
      \/ contains "entries" example_video = Ok true
         /\ (es <- subscript example_video "entries" ;; item es 0) = Ok example_video)
  /\ subscript example_video "webpage_url" = Ok (VStr "https://www.youtube.com/watch?v=y")
  /\ perform example_transport example_lookup
       (MCSingleSource_get_info same same same text Ok (constructed unlinked_source)) []
     = ((Ok tt, with_attr "url" (VStr "https://www.youtube.com/watch?v=y")
                  (constructed unlinked_source)), []).
Proof.
  repeat (split; [first [reflexivity | left; split; reflexivity] |]).
  apply (get_info_lookup same same same text Ok (constructed unlinked_source)
           (VBool true) unlinked_release (VStr "Artist") (VStr "Song")
           example_video example_video (VStr "https://www.youtube.com/watch?v=y")
           example_transport example_lookup);
    first [reflexivity | left; split; reflexivity].
Defined.

(** ** From catalog data to the decoder *)

(** X18: after [set_connect_data], [load] opens the decoder on the blob
    address made from the stream hash of the first album of the first
    track, and binds it to [source]; an exception of the decoder leaves the
    source without one. *)
Theorem load_after_connect_data (py_str : value -> string)
  (strptime FFmpegPCMAudio : value -> result value) (data tracks : value)
  (self self1 : object) :
  MCSingleSource_set_connect_data py_str strptime data tracks self = (Ok tt, self1) ->
  exists track stream_url,
    item tracks 0 = Ok track
    /\ blob_url py_str track = Ok stream_url
    /\ load FFmpegPCMAudio self1
       = match FFmpegPCMAudio stream_url with
         | Ok decoder => (Ok tt, with_attr "source" decoder self1)
         | Raise e => (Raise e, self1)
         end.
Proof.
  intros H.
  unfold MCSingleSource_set_connect_data, mbind, eval, raise, setattr in H.
  cbn [fst snd attrs class_name] in H.
  destruct (subscript data "type") as [type |] eqn:Ety; [| discriminate].
  destruct (among type MULTI_TYPES) eqn:Em; [discriminate |].
  destruct (among type LONG_TYPES) eqn:El; [discriminate |].
  destruct (item tracks 0) as [track |] eqn:Etr; [| discriminate].
  destruct (blob_url py_str track) as [stream_url |] eqn:Eb; [| discriminate].
  repeat step_method H; try discriminate.
  injection H as <-.
  exists track, stream_url. split; [reflexivity | split; [exact Eb |]].
  unfold load, mbind, getattr, eval, setattr, with_attr. cbn [attrs class_name].
  other_attrs. rewrite assoc_get_set.
  destruct (FFmpegPCMAudio stream_url); reflexivity.
Qed.

Lemma load_after_connect_data_witness :
  MCSingleSource_set_connect_data text Ok example_release (VList [example_track])
    (MCSource_init "MCSingleSource" (VStr "song"))
  = (Ok tt, resolved_source)
  /\ exists track stream_url,
       item (VList [example_track]) 0 = Ok track
       /\ blob_url text track = Ok stream_url
       /\ load Ok resolved_source
          = match Ok stream_url with
            | Ok decoder => (Ok tt, with_attr "source" decoder resolved_source)
            | Raise e => (Raise e, resolved_source)
            end.
Proof.
  split; [reflexivity |].
  apply (load_after_connect_data text Ok Ok example_release (VList [example_track])
           (MCSource_init "MCSingleSource" (VStr "song")) resolved_source).
  reflexivity.
Defined.

(** ** Long sources *)

(** X19: [get_info] on a long source as constructed raises
    [AttributeError]: it asks its getter for [get_moonstercat_track], which
    [ConnectGetter] does not have.  Nothing is requested and the source is
    unchanged. *)
Theorem long_source_get_info_fresh (py_str : value -> string)
  (strptime : value -> result value) (track : value) :
  MCLongSource_get_info py_str strptime (MCLongSource_init track)
  = Return (Raise (missing "ConnectGetter" "get_moonstercat_track"),
            MCLongSource_init track).
Proof. reflexivity. Qed.

(** X20: nor does [get_info] get further on a long source given its catalog
    data by [set_connect_data]: the query of the lookup needs
    [self.artists], which a long source is never given, so it raises
    [AttributeError] before any lookup. *)
Theorem long_source_get_info_resolved (py_str : value -> string)
  (strptime : value -> result value) (track data release_track : value)
  (self1 : object) :
  MCLongSource_set_connect_data py_str strptime data release_track
    (MCLongSource_init track) = (Ok tt, self1) ->
  MCLongSource_get_info py_str strptime self1
  = Return (Raise (missing "MCLongSource" "artists"), self1).
Proof.
  intros H.
  unfold MCLongSource_set_connect_data, mbind, eval, raise, setattr in H.
  cbn [fst snd attrs class_name MCLongSource_init MCSource_init assoc_set
       String.eqb Ascii.eqb Bool.eqb andb] in H.
  repeat step_method H; try discriminate.
  injection H as <-. reflexivity.
Qed.

Lemma long_source_get_info_resolved_witness :
  MCLongSource_set_connect_data text Ok example_release example_track
    (MCLongSource_init (VStr "mix")) = (Ok tt, resolved_long_source)
  /\ MCLongSource_get_info text Ok resolved_long_source
     = Return (Raise (missing "MCLongSource" "artists"), resolved_long_source).
Proof.
  split; [reflexivity |].
  apply (long_source_get_info_resolved text Ok (VStr "mix") example_release
           example_track resolved_long_source).
  reflexivity.
Defined.

(** ** The tracklist pattern and the decoder *)

Lemma run_seq (fl : Re.flags) (r1 r2 : Re.regex) (st : Re.cursor)
  (k : Re.cursor -> option Re.cursor) :
  Re.run fl (Re.Seq r1 r2) st k = Re.run fl r1 st (fun st' => Re.run fl r2 st' k).
Proof. reflexivity. Qed.

Lemma run_group (fl : Re.flags) (i : nat) (r : Re.regex) (st : Re.cursor)
  (k : Re.cursor -> option Re.cursor) :
  Re.run fl (Re.Group i r) st k
  = Re.run fl r st (fun st' => k (Re.close_group i st st')).
Proof. reflexivity. Qed.

Lemma one_inv (p : ascii -> bool) (st st' : Re.cursor)
  (k : Re.cursor -> option Re.cursor) :
  Re.one p st k = Some st' ->
  exists st2, k st2 = Some st' /\ Re.caps st2 = Re.caps st.
Proof.
  unfold Re.one, Re.advance. destruct (Re.rest st) as [| c s]; [discriminate |].
  destruct (p c); [| discriminate]. intros H. eexists. split; [exact H | reflexivity].
Qed.

(** A match goes on with the rest of the pattern from some cursor, and a
    pattern keeps the groups it does not close itself. *)
Lemma run_keeps_group (i : nat) (fl : Re.flags) (r : Re.regex) :
  no_group i r = true ->
  forall (st st' : Re.cursor) (k : Re.cursor -> option Re.cursor),
    Re.run fl r st k = Some st' ->
    exists st2, k st2 = Some st'
                /\ Re.group i (Re.caps st2) = Re.group i (Re.caps st).
Proof.
  induction r as [| c | p | | | | r1 IH1 r2 IH2 | r1 IH1 r2 IH2 | g r1 IH1
                 | j r1 IH1 | r1 IH1];
    intros Hn st st' k H; cbn [no_group] in Hn.
  - exists st. split; [exact H | reflexivity].
  - destruct (one_inv _ _ _ _ H) as (st2 & Hk & Hc). exists st2. now rewrite Hc.
  - destruct (one_inv _ _ _ _ H) as (st2 & Hk & Hc). exists st2. now rewrite Hc.
  - destruct (one_inv _ _ _ _ H) as (st2 & Hk & Hc). exists st2. now rewrite Hc.
  - cbn [Re.run] in H. destruct (Re.at_bol fl st); [| discriminate].
    exists st. split; [exact H | reflexivity].
  - cbn [Re.run] in H. destruct (Re.at_eol fl st); [| discriminate].
    exists st. split; [exact H | reflexivity].
  - apply andb_prop in Hn as [Hn1 Hn2]. rewrite run_seq in H.
    destruct (IH1 Hn1 _ _ _ H) as (s1 & H1 & G1).
    destruct (IH2 Hn2 _ _ _ H1) as (s2 & H2 & G2).
    exists s2. split; [exact H2 | congruence].
  - apply andb_prop in Hn as [Hn1 Hn2]. cbn [Re.run] in H.
    destruct (Re.run fl r1 st k) as [x |] eqn:E.
    + injection H as ->. exact (IH1 Hn1 _ _ _ E).
    + exact (IH2 Hn2 _ _ _ H).
  - cbn [Re.run] in H. revert H.
    generalize (String.length (Re.rest st)) as fuel. intros fuel. revert st.
    induction fuel as [| fuel IHf]; intros st H.
    + exists st. split; [exact H | reflexivity].
    + match type of H with
      | (if g then match ?again with _ => _ end else _) = _ =>
          assert (Hagain : again = Some st' ->
                           exists st2, k st2 = Some st'
                             /\ Re.group i (Re.caps st2) = Re.group i (Re.caps st))
      end.
      { intros Ha. destruct (IH1 Hn _ _ _ Ha) as (s1 & H1 & G1).
        destruct (String.length (Re.rest s1) <? String.length (Re.rest st))%nat;
          [| discriminate].
        destruct (IHf _ H1) as (s2 & H2 & G2).
        exists s2. split; [exact H2 | congruence]. }
      destruct g.
      * match type of H with
        | match ?again with _ => _ end = _ => destruct again as [x |] eqn:E
        end.
        -- injection H as ->. now apply Hagain.
        -- exists st. split; [exact H | reflexivity].
      * destruct (k st) as [x |] eqn:E.
        -- injection H as ->. exists st. split; [exact E | reflexivity].
        -- now apply Hagain.
  - apply andb_prop in Hn as [Hj Hn1]. rewrite run_group in H.
    destruct (IH1 Hn1 _ _ _ H) as (s1 & H1 & G1).
    exists (Re.close_group j st s1). split; [exact H1 |].
    cbn [Re.close_group Re.caps Re.group].
    destruct (Nat.eqb i j); [discriminate | exact G1].
  - cbn [Re.run] in H. destruct (Re.run fl r1 st Some); [| discriminate].
    exists st. split; [exact H | reflexivity].
Qed.

Lemma take_cons_sub (c : ascii) (s r : string) :
  (String.length r <= String.length s)%nat ->
  Re.take (String.length (String c s) - String.length r) (String c s)
  = String c (Re.take (String.length s - String.length r) s).
Proof.
  intros H. cbn [String.length].
  replace (S (String.length s) - String.length r)%nat
    with (S (String.length s - String.length r)) by lia.
  reflexivity.
Qed.

Lemma take_none (r : string) :
  Re.take (String.length r - String.length r) r = EmptyString.
Proof. rewrite Nat.sub_diag. destruct r; reflexivity. Qed.

Section TracklistStamp.

#[local] Arguments Ascii.eqb : simpl never.
#[local] Arguments is_digit : simpl never.
#[local] Arguments Re.consumed : simpl never.

Ltac crunch M :=
  repeat first
    [ discriminate M
    | match type of M with
      | context [if is_digit ?c then _ else _] =>
          destruct (is_digit c) eqn:?; cbn in M
      | context [if Ascii.eqb ?a ?b then _ else _] =>
          destruct (Ascii.eqb a b) eqn:?; cbn in M
      end ].

Ltac colons :=
  repeat match goal with
         | H : Ascii.eqb ":" ?c = true |- _ => apply Ascii.eqb_eq in H; subst c
         end.

Ltac stamp_found k M :=
  match type of M with
  | k ?st1 = Some _ =>
      exists st1; split; [exact M |]; colons; unfold Re.consumed; cbn [Re.rest];
      repeat (rewrite take_cons_sub by (cbn [String.length]; lia));
      rewrite take_none;
      unfold spec_duration_format; cbn;
      repeat match goal with H : _ = true |- _ => rewrite H; clear H end;
      reflexivity
  end.

(** The timestamp of the tracklist pattern consumes text of the format of a
    duration, whatever pattern follows it. *)
Lemma tracklist_stamp_shape (st st' : Re.cursor)
  (k : Re.cursor -> option Re.cursor) :
  Re.run (Re.pflags TRACKLIST_REGEX) tracklist_stamp st k = Some st' ->
  exists st1, k st1 = Some st'
              /\ spec_duration_format (Re.consumed st st1) = true.
Proof.
  intros M. unfold tracklist_stamp, digit in M.
  destruct st as [before text groups].
  destruct text as [|c1 [|c2 [|c3 [|c4 [|c5 [|c6 [|c7 [|c8 r]]]]]]]];
    destruct before as [b |];
    cbn in M; unfold Re.one in M; cbn in M; crunch M;
    repeat match type of M with
           | match k ?x with _ => _ end = _ =>
               let E := fresh "E" in
               destruct (k x) as [y |] eqn:E;
               [injection M as ->; stamp_found k E |]
           end;
    try stamp_found k M.
Qed.

End TracklistStamp.

Lemma tracklist_body :
  Re.body TRACKLIST_REGEX = Re.Seq (Re.Group 1 tracklist_stamp) tracklist_label.
Proof. reflexivity. Qed.

(** Group 1 of a match of the tracklist pattern has the format of a
    duration. *)
Lemma tracklist_match_stamp (st st' : Re.cursor) :
  Re.run (Re.pflags TRACKLIST_REGEX) (Re.body TRACKLIST_REGEX) st Some = Some st' ->
  spec_duration_format (Re.group_or_empty 1 st') = true.
Proof.
  rewrite tracklist_body, run_seq, run_group. intros M.
  destruct (tracklist_stamp_shape _ _ _ M) as (st1 & M1 & Hshape).
  destruct (run_keeps_group 1 _ tracklist_label eq_refl _ _ _ M1)
    as (st2 & E & G).
  injection E as <-. unfold Re.group_or_empty. rewrite G.
  cbn [Re.close_group Re.caps Re.group Nat.eqb]. exact Hshape.
Qed.

Lemma search_from_run (p : Re.pattern) (s : string) :
  forall before st st',
    Re.search_from p before s = Some (st, st') ->
    Re.run (Re.pflags p) (Re.body p) st Some = Some st'.
Proof.
  induction s as [| c s IH]; intros before st st' H; cbn [Re.search_from] in H.
  - destruct (Re.run _ _ _ Some) as [x |] eqn:E; [| discriminate].
    injection H as <- <-. exact E.
  - destruct (Re.run _ _ _ Some) as [x |] eqn:E.
    + injection H as <- <-. exact E.
    + exact (IH _ _ _ H).
Qed.

Lemma matches_from_run (p : Re.pattern) (fuel : nat) :
  forall before s m,
    In m (Re.matches_from p fuel before s) ->
    exists st, Re.run (Re.pflags p) (Re.body p) st Some = Some m.
Proof.
  induction fuel as [| fuel IH]; intros before s m H; cbn [Re.matches_from] in H.
  - destruct H.
  - destruct (Re.search_from p before s) as [[st st'] |] eqn:E; [| destruct H].
    destruct H as [<- | H].
    + exists st. exact (search_from_run p s before st st' E).
    + destruct (String.length (Re.rest st') <? String.length (Re.rest st))%nat.
      * exact (IH _ _ _ H).
      * destruct (Re.rest st') as [| c s']; [destruct H | exact (IH _ _ _ H)].
Qed.

Lemma spec_format_decodes (t : string) :
  spec_duration_format t = true -> exists n, parse_duration t = Ok n.
Proof.
  intros H. destruct (spec_format_inv t H)
    as [(a & b & c & d & -> & Ha & Hb & Hc & Hd)
       | (h1 & h2 & a & b & c & d & -> & H1 & H2 & Ha & Hb & Hc & Hd)];
    eexists.
  - apply (parse_duration_mmss a b c d Ha Hb Hc Hd).
  - apply (parse_duration_hhmmss h1 h2 a b c d H1 H2 Ha Hb Hc Hd).
Qed.

Lemma findall_stamp_format (description x y : string) :
  In (x, y) (Re.findall2 TRACKLIST_REGEX description) ->
  spec_duration_format x = true.
Proof.
  unfold Re.findall2. intros H. apply in_map_iff in H as (m & E & Hin).
  injection E as <- _.
  destruct (matches_from_run _ _ _ _ _ Hin) as (st & M).
  exact (tracklist_match_stamp st m M).
Qed.

(** X21: whatever the description, every timestamp [findall] takes out of
    it with the tracklist pattern has exactly the format [MM:SS] or
    [HH:MM:SS], and [parse_duration] decodes it. *)
Theorem tracklist_stamps_decodable (description x y : string) :
  In (x, y) (Re.findall2 TRACKLIST_REGEX description) ->
  spec_duration_format x = true /\ exists n, parse_duration x = Ok n.
Proof.
  intros H. pose proof (findall_stamp_format description x y H) as Hx.
  split; [exact Hx | exact (spec_format_decodes x Hx)].
Qed.

Lemma tracklist_stamps_decodable_witness :
  In ("03:15", "Track A") (Re.findall2 TRACKLIST_REGEX example_description)
  /\ spec_duration_format "03:15" = true
  /\ exists n, parse_duration "03:15" = Ok n.
Proof.
  assert (H : In ("03:15", "Track A")
                (Re.findall2 TRACKLIST_REGEX example_description))
    by (vm_compute; right; left; reflexivity).
  split; [exact H |].
  exact (tracklist_stamps_decodable example_description "03:15" "Track A" H).
Defined.

Lemma comprehension_total {A B : Type} (f : A -> result B) (xs : list A) :
  (forall x, In x xs -> exists y, f x = Ok y) ->
  exists ys, comprehension f xs = Ok ys.
Proof.
  induction xs as [| x xs IH]; intros H; cbn [comprehension].
  - eexists. reflexivity.
  - destruct (H x (or_introl eq_refl)) as [y ->].
    destruct (IH (fun x' Hx => H x' (or_intror Hx))) as [ys ->].
    eexists. reflexivity.
Qed.

(** X22: given a description that is a string and a [webpage_url],
    [set_yt_data] never fails on a timestamp: it gets as far as its loop,
    having set [url] and [tracks = {}], and stops there on
    [tracks.values()]; [_has_yt_data] is not set. *)
Theorem set_yt_data_outcome (data url : value) (description : string)
  (self : object) :
  subscript data "description" = Ok (VStr description) ->
  subscript data "webpage_url" = Ok url ->
  set_yt_data data self
  = (Raise (no_attribute (VList []) "values"), after_yt_assignments url self).
Proof.
  intros Hd Hu. unfold set_yt_data, mbind, eval, setattr, list_values.
  rewrite Hd. cbn [bind as_text].
  match goal with
  | |- context [comprehension ?f ?xs] =>
      destruct (comprehension_total f xs) as [stamps ->]
  end.
  - intros [x y] Hin.
    destruct (spec_format_decodes x (findall_stamp_format description x y Hin))
      as [n ->].
    eexists. reflexivity.
  - rewrite Hu. reflexivity.
Qed.

Lemma set_yt_data_outcome_witness :
  subscript example_yt_data "description" = Ok (VStr example_description)
  /\ subscript example_yt_data "webpage_url"
     = Ok (VStr "https://www.youtube.com/watch?v=x")
  /\ set_yt_data example_yt_data resolved_long_source
     = (Raise (no_attribute (VList []) "values"),
        after_yt_assignments (VStr "https://www.youtube.com/watch?v=x")
          resolved_long_source).
Proof.
  split; [reflexivity | split; [reflexivity |]].
  apply (set_yt_data_outcome example_yt_data
           (VStr "https://www.youtube.com/watch?v=x") example_description
           resolved_long_source); reflexivity.
Defined.

(** ** A single source made with its release *)

Ltac step_goal :=
  match goal with
  | |- context [match ?r with Ok _ => _ | Raise _ => _ end] => destruct r
  | |- context [match ?o with Some _ => _ | None => _ end] => destruct o
  | |- context [if ?b then _ else _] => destruct b
  | |- context [match ?l with [] => _ | _ :: _ => _ end] => destruct l
  end.

(** [get_info] on a source that has its catalog data makes no request to
    the catalog, whatever else the source holds. *)
Lemma get_info_with_connect_data_log
  (upper lower quote : string -> string) (py_str : value -> string)
  (strptime : value -> result value) (self : object)
  (transport : list string -> string -> result response)
  (lookup_service : string -> result value) :
  assoc_get "_has_connect_data" (attrs self) = Some (VBool true) ->
  snd (perform transport lookup_service
         (MCSingleSource_get_info upper lower quote py_str strptime self) [])
  = [].
Proof.
  intros Hf.
  unfold MCSingleSource_get_info, tbind, sync, awaiting, getattr, setattr,
    delattr, eval, ret.
  cbn [io_bind fst snd attrs class_name negb]. rewrite Hf.
  cbn [io_bind truthy negb].
  destruct (hasattr self "url"); cbn [io_bind negb perform snd];
    [reflexivity |].
  destruct (assoc_get "_data" (attrs self)) as [data |];
    cbn [io_bind perform snd]; [| reflexivity].
  repeat (step_goal; cbn [io_bind perform snd bind attrs class_name];
          try reflexivity).
Qed.

(** X23: a single source the constructor made from a release and its
    tracks has its catalog data, and [get_info] on it never asks the catalog:
    whatever the services answer, no HTTP request is made. *)
Theorem constructed_source_needs_no_catalog
  (upper lower quote : string -> string) (py_str : value -> string)
  (strptime : value -> result value) (track data tracks : value) (self : object)
  (transport : list string -> string -> result response)
  (lookup_service : string -> result value) :
  truthy data && truthy tracks = true ->
  MCSingleSource_init py_str strptime track data tracks = Ok self ->
  assoc_get "_has_connect_data" (attrs self) = Some (VBool true)
  /\ snd (perform transport lookup_service
            (MCSingleSource_get_info upper lower quote py_str strptime self) [])
     = [].
Proof.
  intros Hboth Hinit.
  assert (Hf : assoc_get "_has_connect_data" (attrs self) = Some (VBool true)).
  { unfold MCSingleSource_init, mbind, setattr in Hinit.
    cbn [fst snd attrs class_name MCSource_init] in Hinit.
    rewrite Hboth in Hinit.
    match type of Hinit with
    | match ?call with _ => _ end = _ => destruct call as [r self1] eqn:Hcall
    end.
    destruct r; [| discriminate]. injection Hinit as <-.
    unfold MCSingleSource_set_connect_data, mbind, eval, raise, setattr in Hcall.
    cbn [fst snd attrs class_name] in Hcall.
    repeat step_method Hcall; try discriminate.
    inversion Hcall. reflexivity. }
  split; [exact Hf |].
  now apply get_info_with_connect_data_log.
Qed.

Lemma constructed_source_needs_no_catalog_witness :
  truthy example_release && truthy (VList [example_track]) = true
  /\ MCSingleSource_init text Ok (VStr "song") example_release
       (VList [example_track]) = Ok (constructed constructed_source)
  /\ assoc_get "_has_connect_data" (attrs (constructed constructed_source))
     = Some (VBool true)
  /\ snd (perform example_transport example_lookup
            (MCSingleSource_get_info same same same text Ok
               (constructed constructed_source)) [])
     = [].
Proof.
  split; [reflexivity | split; [reflexivity |]].
  apply (constructed_source_needs_no_catalog same same same text Ok (VStr "song")
           example_release (VList [example_track]) (constructed constructed_source)
           example_transport example_lookup); reflexivity.
Defined.
